(** * Adaptive upload gateway ([app.js]): model and verified properties

    The Express application in [app.js] accepts one multipart file on
    [POST /upload], decides between multer's memory and disk storage from
    the host memory statistics and the declared content length, relays the
    file to the Gemini Files API under a 180 s timeout, and removes the
    temporary file.

    The development embeds the decision logic and the request handler as
    Rocq functions.  JavaScript numbers are IEEE 754 binary64 values
    ([spec_float] at precision 53), the file system is a finite map from
    paths to contents, and the code's effects (console output, file system
    calls, the relay call, the HTTP response) are recorded in a trace, in
    the order in which the code performs them. *)

From Stdlib Require Import ZArith NArith Bool List Ascii String.
From Stdlib Require Import Floats.SpecFloat.
From stdpp Require Import base option strings pretty gmap.

Local Open Scope Z_scope.

(** ** JavaScript numbers *)

Module JS.

Definition prec : Z := 53.
Definition emax : Z := 1024.

(** A [number] is a binary64 value; [NaN] carries no payload. *)
Definition number : Type := spec_float.

Definition NaN : number := S754_nan.

(** The number denoted by an integer literal or produced from a
    mathematical integer: round to nearest, ties to even. *)
Definition ofZ (z : Z) : number := binary_normalize prec emax z 0 false.

Definition sub (a b : number) : number := SFsub prec emax a b.
Definition div (a b : number) : number := SFdiv prec emax a b.
Definition mul (a b : number) : number := SFmul prec emax a b.

(** [a > b] and [a <= b]: both are [false] as soon as an operand is
    [NaN]. *)
Definition gt (a b : number) : bool := SFltb b a.
Definition le (a b : number) : bool := SFleb a b.
Definition eq (a b : number) : bool := SFeqb a b.

(** *** [parseInt] with no radix argument (ECMAScript, sec. 19.2.5)

    Header values reach the application as strings of one-byte
    characters, so the white space to skip is TAB, LF, VT, FF, CR, SP
    and NBSP. *)

Definition isWhiteSpace (c : ascii) : bool :=
  let n := N_of_ascii c in
  ((9 <=? n) && (n <=? 13) || (n =? 32) || (n =? 160))%N.

Fixpoint trimStart (s : string) : string :=
  match s with
  | String c s' => if isWhiteSpace c then trimStart s' else s
  | EmptyString => s
  end.

(** Value of a character as a digit, for radices up to 36. *)
Definition digitValue (c : ascii) : option Z :=
  let n := Z.of_N (N_of_ascii c) in
  if (48 <=? n) && (n <=? 57) then Some (n - 48)
  else if (97 <=? n) && (n <=? 122) then Some (n - 87)
  else if (65 <=? n) && (n <=? 90) then Some (n - 55)
  else None.

(** The longest prefix of radix-[R] digits, as a mathematical integer;
    [acc] is [None] until a digit has been read. *)
Fixpoint parseDigits (R : Z) (s : string) (acc : option Z) : option Z :=
  match s with
  | EmptyString => acc
  | String c s' =>
      match digitValue c with
      | Some d =>
          if d <? R then parseDigits R s' (Some (R * default 0 acc + d))
          else acc
      | None => acc
      end
  end.

Definition stripSign (s : string) : bool * string :=
  match s with
  | String "-" r => (true, r)
  | String "+" r => (false, r)
  | _ => (false, s)
  end.

Definition stripHexPrefix (s : string) : Z * string :=
  match s with
  | String "0" (String "x" r) => (16, r)
  | String "0" (String "X" r) => (16, r)
  | _ => (10, s)
  end.

Definition parseInt (input : string) : number :=
  let '(negative, s1) := stripSign (trimStart input) in
  let '(R, s2) := stripHexPrefix s1 in
  match parseDigits R s2 None with
  | None => NaN
  | Some 0 => S754_zero negative
  | Some mathInt => ofZ (if negative then - mathInt else mathInt)
  end.

(** Truthiness of a string: every string but the empty one. *)
Definition truthy (s : string) : bool :=
  match s with EmptyString => false | _ => true end.

End JS.

(** ** Values exchanged with the environment *)

(** A thrown [Error]; only its [message] is read by the application. *)
Record jsError := mkError { message : string }.

(** Result of evaluating a piece of code: a value, or a thrown error. *)
Inductive completion (A : Type) : Type :=
| Normal (a : A)
| Throw (e : jsError).
Arguments Normal {A} a.
Arguments Throw {A} e.

#[local] Unset Elimination Schemes.
(** JSON values, for response bodies and the provider's metadata. *)
Inductive json : Type :=
| JNull
| JBool (b : bool)
| JNum (n : JS.number)
| JStr (s : string)
| JArr (items : list json)
| JObj (fields : list (string * json)).
#[local] Set Elimination Schemes.

(** Everything the code does that can be observed from outside, in order.
    The memory statistics line is kept as the three numbers it is
    formatted from; [ConsoleErrorValue] is [console.error] of a label and
    of a value that is not an [Error], as it is printed. *)
Inductive event : Type :=
| ConsoleLogMemoryStats (freeMem totalMem memoryUsageRatio : JS.number)
| ConsoleLog (line : string)
| ConsoleError (label : string) (e : jsError)
| ConsoleErrorValue (label printed : string)
| FsWrite (path : string)
| FsUnlink (path : string)
| FilesUpload (file : option string) (mimeType displayName : string)
| Respond (status : Z) (body : json).

(** The part of a multipart body that multer hands to a storage engine. *)
Record filePart := mkFilePart {
  part_originalname : string;
  part_mimetype : string;
  part_content : string
}.

(** [req.file] as a storage engine fills it: [buffer] is set by memory
    storage, [path] by disk storage. *)
Record file := mkFile {
  originalname : string;
  mimetype : string;
  buffer : option string;
  path : option string
}.

Inductive storageEngine : Type := DiskStorage | MemoryStorage.

Record multerLimits := mkLimits { fileSize : Z; files : Z }.

Record multerOptions := mkOptions {
  opt_storage : storageEngine;
  opt_limits : multerLimits
}.

(** What the multer middleware reports to its callback: an error that is a
    [MulterError], any other error, or no error with the accepted file
    part, if the request carried one.  multer is a library: its report is
    part of the environment ([multer_run] below), as a function of the
    options it is given; [multerSingle] below describes the reports of a
    multer that enforces the limits it is given on a request body.  A
    file that multer's disk engine has begun to store when multer reports
    an error is removed by multer before the report; this transient file
    appears neither in the file system nor in the trace. *)
Inductive multerResult : Type :=
| MulterError (e : jsError)
| OtherError (e : jsError)
| Accepted (f : option filePart).

(** How the promise returned by [ai.files.upload] settles, and how many
    milliseconds after the call. *)
Inductive relayOutcome : Type :=
| Resolves (after : N) (metadata : json)
| Rejects (after : N) (e : jsError)
| NeverSettles.

(** The environment of one request.  [writeFileSync_fault] is the error
    with which [fs.writeFileSync] fails on a path, if it does;
    [writeFileSync_partial] is what the failed call has left at the path:
    nothing when it failed to open the file, the created file (empty or
    partly written) when it failed while writing. *)
Record host := mkHost {
  dirname : string;
  os_freemem : completion JS.number;
  os_totalmem : completion JS.number;
  Date_now : N;
  multer_run : multerOptions -> multerResult;
  files_upload : relayOutcome;
  writeFileSync_fault : string -> option jsError;
  writeFileSync_partial : string -> option string;
  unlinkSync_fault : string -> option jsError
}.

Record request := mkRequest {
  content_length : option string;
  req_file : option file
}.

(** ** Process state and the monad of effects *)

Record world := mkWorld {
  fs : gmap string string;
  useMemoryStorage : bool;
  trace : list event
}.

(** A computation may change the world and then return or throw; the
    changes made before a throw stay. *)
Definition M (A : Type) : Type := world -> completion A * world.

#[global] Instance M_ret : MRet M := fun A a w => (Normal a, w).

#[global] Instance M_bind : MBind M := fun A B f c w =>
  match c w with
  | (Normal a, w') => f a w'
  | (Throw e, w') => (Throw e, w')
  end.

Definition throw {A : Type} (e : jsError) : M A := fun w => (Throw e, w).

Definition tryCatch {A : Type} (body : M A) (handler : jsError -> M A) : M A :=
  fun w =>
    match body w with
    | (Normal a, w') => (Normal a, w')
    | (Throw e, w') => handler e w'
    end.

Definition lift {A : Type} (c : completion A) : M A := fun w => (c, w).

Definition emit (ev : event) : M unit := fun w =>
  (Normal tt,
   {| fs := fs w; useMemoryStorage := useMemoryStorage w;
      trace := trace w ++ [ev] |}).

Definition readUseMemoryStorage : M bool := fun w =>
  (Normal (useMemoryStorage w), w).

Definition assignUseMemoryStorage (b : bool) : M unit := fun w =>
  (Normal tt, {| fs := fs w; useMemoryStorage := b; trace := trace w |}).

Definition putFile (p data : string) : M unit := fun w =>
  (Normal tt,
   {| fs := <[p := data]> (fs w); useMemoryStorage := useMemoryStorage w;
      trace := trace w ++ [FsWrite p] |}).

Definition removeFile (p : string) : M unit := fun w =>
  (Normal tt,
   {| fs := delete p (fs w); useMemoryStorage := useMemoryStorage w;
      trace := trace w ++ [FsUnlink p] |}).

Definition lookupFile (p : string) : M (option string) := fun w =>
  (Normal (fs w !! p), w).

(** ** The application *)

Section App.

Variable H : host.

(** [path.join] on a directory and a file name that multer has already
    reduced to its base name. *)
Definition path_join (dir name : string) : string := dir +:+ "/" +:+ name.

Definition uploadsDir : string := path_join (dirname H) "uploads".

(** [fs.writeFileSync]: throws on undefined data, before it opens
    anything; otherwise opens (creates or truncates) the file and writes.
    When the host reports a fault, the call throws after leaving at the
    path what [writeFileSync_partial] says.  The messages of Node's own
    errors are abbreviated. *)
Definition writeFileSync (p : string) (data : option string) : M unit :=
  match data with
  | None => throw (mkError "The data argument must be of type string or an instance of Buffer")
  | Some d =>
      match writeFileSync_fault H p with
      | Some e =>
          match writeFileSync_partial H p with
          | Some remains => putFile p remains;; throw e
          | None => throw e
          end
      | None => putFile p d
      end
  end.

(** [fs.unlinkSync]: throws on an undefined path, on a host fault, and
    when the file does not exist. *)
Definition unlinkSync (p : option string) : M unit :=
  match p with
  | None => throw (mkError "The path argument must be of type string")
  | Some p =>
      match unlinkSync_fault H p with
      | Some e => throw e
      | None =>
          present ← lookupFile p;
          match present with
          | None => throw (mkError ("ENOENT: no such file or directory, unlink " +:+ p))
          | Some _ => removeFile p
          end
      end
  end.

(** [res.status(code).json(body)]. *)
Definition respond (status : Z) (body : json) : M unit :=
  emit (Respond status body).

(** *** Storage selection (lines 49-74) *)

(** The literal [0.8]: the binary64 number nearest to 8/10
    ([7205759403792794 * 2^-53]). *)
Definition MEMORY_THRESHOLD : JS.number := S754_finite false 7205759403792794 (-53).

(** [15 * 1024 * 1024]. *)
Definition sizeCutoff : JS.number :=
  JS.mul (JS.mul (JS.ofZ 15) (JS.ofZ 1024)) (JS.ofZ 1024).

(** [1 - (freeMem / totalMem)] (line 58). *)
Definition memoryUsageRatio (freeMem totalMem : JS.number) : JS.number :=
  JS.sub (JS.ofZ 1) (JS.div freeMem totalMem).

Definition shouldUseMemoryStorage (fileSize : JS.number) : M bool :=
  tryCatch
    (freeMem ← lift (os_freemem H);
     totalMem ← lift (os_totalmem H);
     let ratio := memoryUsageRatio freeMem totalMem in
     emit (ConsoleLogMemoryStats freeMem totalMem ratio);;
     if JS.gt fileSize sizeCutoff || JS.gt ratio MEMORY_THRESHOLD
     then
       emit (ConsoleLog "Using disk storage due to file size or memory pressure");;
       mret false
     else mret true)
    (fun error =>
       emit (ConsoleError "Error checking memory:" error);;
       mret false).

(** *** Storage engines (lines 76-85) *)

(** The [filename] callback of the disk engine. *)
Definition storage_filename (f : filePart) : string :=
  pretty (Date_now H) +:+ "-" +:+ part_originalname f.

(** Path under which the disk engine stores a part: its [destination]
    joined with its [filename]. *)
Definition diskPath (f : filePart) : string :=
  path_join uploadsDir (storage_filename f).

(** What multer's engines leave in [req.file]: the disk engine writes
    the part to [diskPath], the memory engine keeps its bytes. *)
Definition handleFile (engine : storageEngine) (f : filePart) : M file :=
  match engine with
  | DiskStorage =>
      let p := diskPath f in
      putFile p (part_content f);;
      mret {| originalname := part_originalname f;
              mimetype := part_mimetype f;
              buffer := None; path := Some p |}
  | MemoryStorage =>
      mret {| originalname := part_originalname f;
              mimetype := part_mimetype f;
              buffer := Some (part_content f); path := None |}
  end.

(** *** [adaptiveUpload] (lines 88-107) *)

Definition contentLength (req : request) : JS.number :=
  match content_length req with
  | Some h => if JS.truthy h then JS.parseInt h else JS.ofZ 0
  | None => JS.ofZ 0
  end.

Definition uploadLimits : multerLimits :=
  {| fileSize := 50 * 1024 * 1024; files := 1 |}.

Definition uploadOptions (useMemory : bool) : multerOptions :=
  {| opt_storage := if useMemory then MemoryStorage else DiskStorage;
     opt_limits := uploadLimits |}.

Definition adaptiveUpload (req : request) (next : request -> M unit) : M unit :=
  decision ← shouldUseMemoryStorage (contentLength req);
  assignUseMemoryStorage decision;;
  useMemory ← readUseMemoryStorage;
  let options := uploadOptions useMemory in
  match multer_run H options with
  | MulterError err =>
      respond 400 (JObj [("error", JStr ("Multer error: " +:+ message err))])
  | OtherError err =>
      respond 500 (JObj [("error", JStr ("Unknown error: " +:+ message err))])
  | Accepted None => next req
  | Accepted (Some part) =>
      f ← handleFile (opt_storage options) part;
      next {| content_length := content_length req; req_file := Some f |}
  end.

(** *** The [/upload] handler (lines 132-172) *)

Definition UPLOAD_TIMEOUT : N := 180000.

Definition timeoutError : jsError := mkError "Gemini API upload timeout".

(** [await Promise.race([uploadPromise, timeoutPromise])]: the first
    promise to settle decides.  The relay's promise is created first
    (line 147 precedes line 151), so a relay that settles in the very
    millisecond in which the timer fires is still the first: the timer
    wins only when the relay has not settled by 180000 ms. *)
Definition race (o : relayOutcome) : completion json :=
  match o with
  | Resolves t metadata =>
      if (t <=? UPLOAD_TIMEOUT)%N then Normal metadata else Throw timeoutError
  | Rejects t e =>
      if (t <=? UPLOAD_TIMEOUT)%N then Throw e else Throw timeoutError
  | NeverSettles => Throw timeoutError
  end.

Definition storageType (useMemory : bool) : string :=
  if useMemory then "memory" else "disk".

(** Path of the file that memory mode materialises for the relay
    (line 141). *)
Definition tempPath (name : string) : string :=
  path_join uploadsDir ("temp-" +:+ pretty (Date_now H) +:+ "-" +:+ name).

Definition successBody (uploadedFile : json) : json :=
  JObj [("message", JStr "File uploaded to Gemini Files API");
        ("metadata", uploadedFile)].

Definition failureBody (err : jsError) (useMemory : bool) : json :=
  JObj [("error", JStr "File upload failed");
        ("details", JStr (message err));
        ("storageType", JStr (storageType useMemory))].

Definition uploadHandler (req : request) : M unit :=
  tryCatch
    (match req_file req with
     | None => respond 400 (JObj [("error", JStr "No file uploaded")])
     | Some f =>
         useMemory ← readUseMemoryStorage;
         tempFilePath ←
           (if (useMemory : bool) then
              let p := tempPath (originalname f) in
              writeFileSync p (buffer f);;
              mret (Some p)
            else mret (path f));
         emit (FilesUpload tempFilePath (mimetype f) (originalname f));;
         uploadedFile ← lift (race (files_upload H));
         unlinkSync tempFilePath;;
         respond 200 (successBody uploadedFile)
     end)
    (fun err =>
       emit (ConsoleError "Upload error:" err);;
       useMemory ← readUseMemoryStorage;
       respond 500 (failureBody err useMemory);;
       match req_file req with
       | Some f =>
           match path f with
           | Some p =>
               if negb (useMemory : bool) && JS.truthy p then
                 tryCatch (unlinkSync (Some p))
                   (fun e => emit (ConsoleError "Failed to clean up file:" e))
               else mret tt
           | None => mret tt
           end
       | None => mret tt
       end).

(** [app.post('/upload', adaptiveUpload, handler)]: the request enters
    with its headers and no [file] property. *)
Definition postUpload (contentLengthHeader : option string) : M unit :=
  adaptiveUpload {| content_length := contentLengthHeader; req_file := None |}
    uploadHandler.

(** The storage engine that [adaptiveUpload] hands to multer for a
    declared size (lines 91-93). *)
Definition selectedStorage (fileSize : JS.number) (w : world)
  : completion storageEngine :=
  match fst (shouldUseMemoryStorage fileSize w) with
  | Normal useMemory => Normal (opt_storage (uploadOptions useMemory))
  | Throw e => Throw e
  end.

(** The options that [adaptiveUpload] passes to multer for a request
    with the given Content-Length header. *)
Definition optionsFor (contentLengthHeader : option string) (w : world)
  : multerOptions :=
  let req := {| content_length := contentLengthHeader; req_file := None |} in
  uploadOptions
    (match fst (shouldUseMemoryStorage (contentLength req) w) with
     | Normal useMemory => useMemory
     | Throw _ => false
     end).

(** The disk-resident file that is handed to the relay: the temp file in
    memory mode, multer's file in disk mode. *)
Definition relayPath (engine : storageEngine) (f : filePart) : string :=
  match engine with
  | MemoryStorage => tempPath (part_originalname f)
  | DiskStorage => diskPath f
  end.

Definition isMemory (engine : storageEngine) : bool :=
  match engine with MemoryStorage => true | DiskStorage => false end.

End App.

Arguments path_join : simpl never.
Arguments tempPath : simpl never.
Arguments diskPath : simpl never.
Arguments sizeCutoff : simpl never.
Arguments MEMORY_THRESHOLD : simpl never.

(** ** Observations on a run *)

Definition initialWorld (files : gmap string string) (flag : bool) : world :=
  {| fs := files; useMemoryStorage := flag; trace := [] |}.

Definition responseOf (ev : event) : option (Z * json) :=
  match ev with Respond status body => Some (status, body) | _ => None end.

Definition relayCallOf (ev : event) : option (option string) :=
  match ev with FilesUpload p _ _ => Some p | _ => None end.

Definition writeOf (ev : event) : option string :=
  match ev with FsWrite p => Some p | _ => None end.

Definition responses (tr : list event) : list (Z * json) := omap responseOf tr.
Definition relayCalls (tr : list event) : list (option string) := omap relayCallOf tr.
Definition fileWrites (tr : list event) : list string := omap writeOf tr.

Definition isConsole (ev : event) : bool :=
  match ev with
  | ConsoleLogMemoryStats _ _ _ | ConsoleLog _ | ConsoleError _ _
  | ConsoleErrorValue _ _ => true
  | _ => false
  end.

(** [unlinkedBeforeResponse p tr]: the trace removes [p] and only later
    sends a response. *)
Fixpoint unlinkedBeforeResponse (p : string) (tr : list event) : bool :=
  match tr with
  | [] => false
  | FsUnlink q :: rest =>
      if String.eqb p q then bool_decide (responses rest ≠ [])
      else unlinkedBeforeResponse p rest
  | Respond _ _ :: _ => false
  | _ :: rest => unlinkedBeforeResponse p rest
  end.

(** Field of a JSON object. *)
Fixpoint field (name : string) (fields : list (string * json)) : option json :=
  match fields with
  | [] => None
  | (k, v) :: rest => if String.eqb k name then Some v else field name rest
  end.

Definition jsonField (name : string) (body : json) : option json :=
  match body with JObj fields => field name fields | _ => None end.

(** Whether the relay has settled by [limit] milliseconds after the call. *)
Definition settlesWithin (limit : N) (o : relayOutcome) : bool :=
  match o with
  | Resolves t _ | Rejects t _ => (t <=? limit)%N
  | NeverSettles => false
  end.

(** ** The limits of the receiver

    Modelled from the spec: the enforcement of the limits by the multipart
    parser behind [multer(...).single('file')].  The parser is a library
    of the application, not part of its source; lines 92-98 give it the
    limits and the field name, and lines 99-105 answer what it reports. *)







(** ** Sample environments, used to run the model on concrete requests *)

Module Sample.

Definition GiB : Z := 1024 * 1024 * 1024.

Definition metadata : json :=
  JObj [("name", JStr "files/abc123"); ("mimeType", JStr "text/plain")].

Definition part : filePart :=
  {| part_originalname := "notes.txt"; part_mimetype := "text/plain";
     part_content := "hello" |}.

Definition noFault : string -> option jsError := fun _ => None.

Definition locked : string -> option jsError :=
  fun _ => Some (mkError "EPERM: operation not permitted, unlink").

(** A host with 10 GiB of memory of which [free] bytes are free, whose
    multer reports [upload] and whose relay settles as [relay]. *)
Definition hostWith (free : completion JS.number) (upload : multerResult)
    (relay : relayOutcome) (unlinkFault : string -> option jsError) : host :=
  {| dirname := "/srv/app";
     os_freemem := free;
     os_totalmem := Normal (JS.ofZ (10 * GiB));
     Date_now := 1700000000000%N;
     multer_run := fun _ => upload;
     files_upload := relay;
     writeFileSync_fault := fun _ => None;
     writeFileSync_partial := fun _ => None;
     unlinkSync_fault := unlinkFault |}.

(** 8 GiB free: usage ratio 0.2. *)
Definition idle (relay : relayOutcome) (unlinkFault : string -> option jsError) : host :=
  hostWith (Normal (JS.ofZ (8 * GiB))) (Accepted (Some part)) relay unlinkFault.

(** 2 GiB free: the usage ratio is the threshold itself. *)
Definition atThreshold : host :=
  hostWith (Normal (JS.ofZ (2 * GiB))) (Accepted (Some part))
    (Resolves 1200 metadata) noFault.

(** 1 GiB free: usage ratio 0.9. *)
Definition busy (relay : relayOutcome) (unlinkFault : string -> option jsError) : host :=
  hostWith (Normal (JS.ofZ (1 * GiB))) (Accepted (Some part)) relay unlinkFault.

(** A host whose memory statistics cannot be read. *)
Definition blind : host :=
  hostWith (Throw (mkError "ENOSYS: function not implemented, uv_get_free_memory"))
    (Accepted (Some part)) (Resolves 1200 metadata) noFault.

(** A request without a file part. *)
Definition empty : host :=
  hostWith (Normal (JS.ofZ (8 * GiB))) (Accepted None)
    (Resolves 1200 metadata) noFault.

(** A request that multer rejects for its size. *)
Definition oversized : host :=
  hostWith (Normal (JS.ofZ (8 * GiB))) (MulterError (mkError "File too large"))
    (Resolves 1200 metadata) noFault.

(** An idle host whose relay call is refused by the provider. *)
Definition refused : host :=
  idle (Rejects 40 (mkError "403 Forbidden")) noFault.

(** An idle host whose relay call never settles. *)
Definition stalled : host := idle NeverSettles noFault.

(** An idle host whose relay succeeds but whose temp file cannot be
    removed. *)
Definition stuck : host := idle (Resolves 1200 metadata) locked.

(** A busy host (disk mode) whose relay is refused and whose file cannot
    be removed. *)
Definition busyStuck : host :=
  busy (Rejects 40 (mkError "403 Forbidden")) locked.

Definition start : world := initialWorld ∅ true.

End Sample.

(** ** Further environments *)

Module Scenario.

(** An idle host on which the temp file is created but cannot be
    filled. *)
Definition fullDisk : host :=
  {| dirname := "/srv/app";
     os_freemem := Normal (JS.ofZ (8 * Sample.GiB));
     os_totalmem := Normal (JS.ofZ (10 * Sample.GiB));
     Date_now := 1700000000000%N;
     multer_run := fun _ => Accepted (Some Sample.part);
     files_upload := Resolves 1200 Sample.metadata;
     writeFileSync_fault := fun _ => Some (mkError "ENOSPC: no space left on device, write");
     writeFileSync_partial := fun _ => Some "";
     unlinkSync_fault := fun _ => None |}.

(** An idle host on which the temp file cannot even be created. *)
Definition readOnly : host :=
  {| dirname := "/srv/app";
     os_freemem := Normal (JS.ofZ (8 * Sample.GiB));
     os_totalmem := Normal (JS.ofZ (10 * Sample.GiB));
     Date_now := 1700000000000%N;
     multer_run := fun _ => Accepted (Some Sample.part);
     files_upload := Resolves 1200 Sample.metadata;
     writeFileSync_fault := fun _ => Some (mkError "EROFS: read-only file system, open");
     writeFileSync_partial := fun _ => None;
     unlinkSync_fault := fun _ => None |}.

(** A request whose body multer cannot parse. *)
Definition truncated : host :=
  Sample.hostWith (Normal (JS.ofZ (8 * Sample.GiB)))
    (OtherError (mkError "Unexpected end of form"))
    (Resolves 1200 Sample.metadata) Sample.noFault.

(** A busy host (disk mode) whose relay is refused. *)
Definition busyRefused : host :=
  Sample.busy (Rejects 40 (mkError "403 Forbidden")) Sample.noFault.

(** A busy host (disk mode) whose relay succeeds. *)
Definition busyServed : host :=
  Sample.busy (Resolves 1200 Sample.metadata) Sample.noFault.

(** The idle host of [Sample], one millisecond later. *)
Definition later : host :=
  {| dirname := "/srv/app";
     os_freemem := Normal (JS.ofZ (8 * Sample.GiB));
     os_totalmem := Normal (JS.ofZ (10 * Sample.GiB));
     Date_now := 1700000000001%N;
     multer_run := fun _ => Accepted (Some Sample.part);
     files_upload := Resolves 1200 Sample.metadata;
     writeFileSync_fault := fun _ => None;
     writeFileSync_partial := fun _ => None;
     unlinkSync_fault := fun _ => None |}.






(** An uploads directory that already holds another file. *)
Definition occupied : gmap string string :=
  {[ "/srv/app/uploads/1699999999999-report.pdf" := "%PDF" ]}.

End Scenario.

(** ** Cross-origin policy (lines 16-37) *)

Definition allowedOrigins : list string :=
  ["http://localhost:3000";
   "http://localhost:3001";
   "https://ed-tech-steel.vercel.app";
   "https://ed-tech-6r0b.onrender.com"].

(** The [origin] function given to [cors]: [Normal true] stands for
    [callback(null, true)], a throw for [callback(new Error(...))]. *)
Definition corsOrigin (origin : option string) : completion bool :=
  match origin with
  | None => Normal true
  | Some o =>
      if negb (JS.truthy o) then Normal true
      else if existsb (String.eqb o) allowedOrigins then Normal true
      else Throw (mkError "Not allowed by CORS")
  end.

(** ** Suspension points

    [useMemoryStorage] is one variable of the process.  A request is
    suspended while multer reads its body (between lines 99 and 105) and
    while the handler awaits the race (line 154); what other requests do
    to the process state in the meantime is a function on worlds. *)

Section Async.

Variable H : host.

(** Lines 89-98: everything [adaptiveUpload] does before multer starts
    reading the body. *)
Definition adaptiveUploadBegin (req : request) : M multerOptions :=
  decision ← shouldUseMemoryStorage H (contentLength req);
  assignUseMemoryStorage decision;;
  useMemory ← readUseMemoryStorage;
  mret (uploadOptions useMemory).

Definition suspended (others : world -> world) : M unit :=
  fun w => (Normal tt, others w).

Definition adaptiveUploadAsync (duringUpload : world -> world)
    (req : request) (next : request -> M unit) : M unit :=
  options ← adaptiveUploadBegin req;
  suspended duringUpload;;
  match multer_run H options with
  | MulterError err =>
      respond 400 (JObj [("error", JStr ("Multer error: " +:+ message err))])
  | OtherError err =>
      respond 500 (JObj [("error", JStr ("Unknown error: " +:+ message err))])
  | Accepted None => next req
  | Accepted (Some part) =>
      f ← handleFile H (opt_storage options) part;
      next {| content_length := content_length req; req_file := Some f |}
  end.

Definition uploadHandlerAsync (duringRelay : world -> world) (req : request) : M unit :=
  tryCatch
    (match req_file req with
     | None => respond 400 (JObj [("error", JStr "No file uploaded")])
     | Some f =>
         useMemory ← readUseMemoryStorage;
         tempFilePath ←
           (if (useMemory : bool) then
              let p := tempPath H (originalname f) in
              writeFileSync H p (buffer f);;
              mret (Some p)
            else mret (path f));
         emit (FilesUpload tempFilePath (mimetype f) (originalname f));;
         suspended duringRelay;;
         uploadedFile ← lift (race (files_upload H));
         unlinkSync H tempFilePath;;
         respond 200 (successBody uploadedFile)
     end)
    (fun err =>
       emit (ConsoleError "Upload error:" err);;
       useMemory ← readUseMemoryStorage;
       respond 500 (failureBody err useMemory);;
       match req_file req with
       | Some f =>
           match path f with
           | Some p =>
               if negb (useMemory : bool) && JS.truthy p then
                 tryCatch (unlinkSync H (Some p))
                   (fun e => emit (ConsoleError "Failed to clean up file:" e))
               else mret tt
           | None => mret tt
           end
       | None => mret tt
       end).

Definition postUploadAsync (duringUpload duringRelay : world -> world)
    (contentLengthHeader : option string) : M unit :=
  adaptiveUploadAsync duringUpload
    {| content_length := contentLengthHeader; req_file := None |}
    (uploadHandlerAsync duringRelay).

End Async.

(** What the arrival of another request, served by host [H'], does to the
    process state while this one is suspended: the synchronous part of
    its [adaptiveUpload]. *)
Definition arrival (H' : host) (contentLengthHeader : option string)
  : world -> world :=
  fun w =>
    snd (adaptiveUploadBegin H'
           {| content_length := contentLengthHeader; req_file := None |} w).

(** ** Rejections without an error object

    A promise may reject with any value.  The relay is taken above to
    reject with an [Error]; here the race of line 154 may also end with
    the rejection value [undefined], of which no [message] can be read. *)

Inductive settlement : Type :=
| Fulfilled (uploadedFile : json)
| RejectedWith (e : jsError)
| RejectedBare.

(** The settlement that [race] describes. *)
Definition settled (c : completion json) : settlement :=
  match c with
  | Normal uploadedFile => Fulfilled uploadedFile
  | Throw e => RejectedWith e
  end.

Section Settled.

Variable H : host.

(** How the [try] block of lines 133-159 ends when nothing is thrown to
    the [catch] as an [Error]: by running to its end, or by the bare
    rejection of the awaited race. *)
Inductive tryEnd : Type := Completed | Rejected.

Definition tryBlock (s : settlement) (req : request) : M tryEnd :=
  match req_file req with
  | None =>
      respond 400 (JObj [("error", JStr "No file uploaded")]);;
      mret Completed
  | Some f =>
      useMemory ← readUseMemoryStorage;
      tempFilePath ←
        (if (useMemory : bool) then
           let p := tempPath H (originalname f) in
           writeFileSync H p (buffer f);;
           mret (Some p)
         else mret (path f));
      emit (FilesUpload tempFilePath (mimetype f) (originalname f));;
      match s with
      | Fulfilled uploadedFile =>
          unlinkSync H tempFilePath;;
          respond 200 (successBody uploadedFile);;
          mret Completed
      | RejectedWith e => throw e
      | RejectedBare => mret Rejected
      end
  end.

(** The [catch] block of lines 160-171 for a caught value: an [Error], or
    a value without a [message].  In the second case [res.status(500)]
    has been called, but building the body reads [err.message], which
    throws a [TypeError] before [json] is called; nothing after it runs. *)
Definition catchBlock (req : request) (err : option jsError) : M unit :=
  match err with
  | None =>
      emit (ConsoleErrorValue "Upload error:" "undefined");;
      throw (mkError "Cannot read properties of undefined (reading 'message')")
  | Some err =>
      emit (ConsoleError "Upload error:" err);;
      useMemory ← readUseMemoryStorage;
      respond 500 (failureBody err useMemory);;
      match req_file req with
      | Some f =>
          match path f with
          | Some p =>
              if negb (useMemory : bool) && JS.truthy p then
                tryCatch (unlinkSync H (Some p))
                  (fun e => emit (ConsoleError "Failed to clean up file:" e))
              else mret tt
          | None => mret tt
          end
      | None => mret tt
      end
  end.

Definition uploadHandlerSettled (s : settlement) (req : request) : M unit :=
  fun w =>
    match tryBlock s req w with
    | (Normal Completed, w') => (Normal tt, w')
    | (Normal Rejected, w') => catchBlock req None w'
    | (Throw e, w') => catchBlock req (Some e) w'
    end.

Definition postUploadSettled (s : settlement)
    (contentLengthHeader : option string) : M unit :=
  adaptiveUpload H
    {| content_length := contentLengthHeader; req_file := None |}
    (uploadHandlerSettled s).

End Settled.

(** ** Runs from an arbitrary world *)

(** The world with an empty trace, and a world put after the trace of
    another. *)
Definition fresh (w : world) : world :=
  {| fs := fs w; useMemoryStorage := useMemoryStorage w; trace := [] |}.

Definition rebase (w w' : world) : world :=
  {| fs := fs w'; useMemoryStorage := useMemoryStorage w';
     trace := trace w ++ trace w' |}.

(** A computation that reads nothing of the trace and only appends to it. *)
Definition traceFramed {A : Type} (c : M A) : Prop :=
  forall w, c w = (fst (c (fresh w)), rebase w (snd (c (fresh w)))).

(** ** Decimal digits *)

Definition isDigit (c : ascii) : bool :=
  let n := N_of_ascii c in ((48 <=? n) && (n <=? 57))%N.

Fixpoint allDigits (s : string) : bool :=
  match s with
  | EmptyString => true
  | String c s' => isDigit c && allDigits s'
  end.

(** * Properties *)

(** ** The model on concrete inputs *)

Example parseInt_decimal : JS.parseInt "1024" = JS.ofZ 1024.
Proof. reflexivity. Qed.

Example parseInt_prefix : JS.parseInt "  12abc" = JS.ofZ 12.
Proof. reflexivity. Qed.

Example parseInt_hex : JS.parseInt "0x1F" = JS.ofZ 31.
Proof. reflexivity. Qed.

Example parseInt_negative : JS.parseInt "-5" = JS.ofZ (-5).
Proof. reflexivity. Qed.

Example parseInt_letters : JS.parseInt "abc" = JS.NaN.
Proof. reflexivity. Qed.

Example parseInt_blank : JS.parseInt " " = JS.NaN.
Proof. reflexivity. Qed.

(** [1 - 2/10] rounds to the same binary64 number as the literal [0.8]. *)
Example ratio_at_threshold :
  memoryUsageRatio (JS.ofZ 2) (JS.ofZ 10) = MEMORY_THRESHOLD.
Proof. vm_compute. reflexivity. Qed.

(** A small upload on an idle host: buffered in memory, written to the
    temp path, relayed, removed, answered with 200. *)
Example idle_upload_trace :
  let p := "/srv/app/uploads/temp-1700000000000-notes.txt" in
  postUpload (Sample.idle (Resolves 1200 Sample.metadata) Sample.noFault)
    (Some "1024") Sample.start =
  (Normal tt,
   {| fs := ∅; useMemoryStorage := true;
      trace :=
        [ConsoleLogMemoryStats (JS.ofZ (8 * Sample.GiB)) (JS.ofZ (10 * Sample.GiB))
           (memoryUsageRatio (JS.ofZ 8) (JS.ofZ 10));
         FsWrite p;
         FilesUpload (Some p) "text/plain" "notes.txt";
         FsUnlink p;
         Respond 200 (successBody Sample.metadata)] |}).
Proof. vm_compute. reflexivity. Qed.

(** The same upload on a busy host goes through multer's disk file. *)
Example busy_upload_trace :
  let p := "/srv/app/uploads/1700000000000-notes.txt" in
  postUpload (Sample.busy (Resolves 1200 Sample.metadata) Sample.noFault)
    (Some "1024") Sample.start =
  (Normal tt,
   {| fs := ∅; useMemoryStorage := false;
      trace :=
        [ConsoleLogMemoryStats (JS.ofZ (1 * Sample.GiB)) (JS.ofZ (10 * Sample.GiB))
           (memoryUsageRatio (JS.ofZ 1) (JS.ofZ 10));
         ConsoleLog "Using disk storage due to file size or memory pressure";
         FsWrite p;
         FilesUpload (Some p) "text/plain" "notes.txt";
         FsUnlink p;
         Respond 200 (successBody Sample.metadata)] |}).
Proof. vm_compute. reflexivity. Qed.

Example idle_upload_unlinks_first :
  unlinkedBeforeResponse "/srv/app/uploads/temp-1700000000000-notes.txt"
    (trace (snd (postUpload (Sample.idle (Resolves 1200 Sample.metadata) Sample.noFault)
                   (Some "1024") Sample.start))) = true.
Proof. vm_compute. reflexivity. Qed.

(** A host whose memory statistics cannot be read still serves the
    upload, from disk. *)
Example blind_upload_served :
  responses (trace (snd (postUpload Sample.blind None Sample.start)))
  = [(200, successBody Sample.metadata)]
  /\ useMemoryStorage (snd (postUpload Sample.blind None Sample.start)) = false.
Proof. vm_compute. split; reflexivity. Qed.

(** A declared size of 20 MB forces disk storage on an idle host. *)
Example large_upload_on_disk :
  selectedStorage (Sample.idle NeverSettles Sample.noFault) (JS.parseInt "20000000")
    Sample.start = Normal DiskStorage.
Proof. vm_compute. reflexivity. Qed.

(** ** Comparisons of numbers *)

Lemma SFcompare_antisym (a b : spec_float) :
  SFcompare b a = CompOpp <$> SFcompare a b.
Proof.
  destruct a as [s1|s1| |s1 m1 e1], b as [s2|s2| |s2 m2 e2]; simpl;
    try reflexivity;
    try (destruct s1; reflexivity);
    try (destruct s2; reflexivity);
    try (destruct s1, s2; reflexivity).
  destruct s1, s2; simpl; try reflexivity;
    rewrite (Z.compare_antisym e1 e2);
    destruct (e1 ?= e2)%Z; simpl; try reflexivity;
    rewrite (Pos.compare_cont_antisym m1 m2 Eq); simpl;
    destruct (Pos.compare_cont Eq m1 m2); reflexivity.
Qed.

Lemma le_not_gt (a b : JS.number) : JS.le a b = true -> JS.gt a b = false.
Proof.
  unfold JS.le, JS.gt, SFleb, SFltb. rewrite (SFcompare_antisym a b).
  destruct (SFcompare a b) as [[]|]; simpl; congruence.
Qed.

Lemma gt_not_le (a b : JS.number) : JS.gt a b = true -> JS.le a b = false.
Proof.
  unfold JS.le, JS.gt, SFleb, SFltb. rewrite (SFcompare_antisym a b).
  destruct (SFcompare a b) as [[]|]; simpl; congruence.
Qed.

Lemma eq_le (a b : JS.number) : JS.eq a b = true -> JS.le a b = true.
Proof.
  unfold JS.le, JS.eq, SFleb, SFeqb.
  destruct (SFcompare a b) as [[]|]; congruence.
Qed.

Lemma NaN_gt (b : JS.number) : JS.gt JS.NaN b = false.
Proof. unfold JS.gt, SFltb. destruct b; reflexivity. Qed.

Lemma NaN_le (b : JS.number) : JS.le JS.NaN b = false.
Proof. reflexivity. Qed.

(** The literals of the source denote the expected numbers. *)
Lemma sizeCutoff_15MiB : sizeCutoff = JS.ofZ 15728640.
Proof. vm_compute. reflexivity. Qed.

Lemma MEMORY_THRESHOLD_nearest : MEMORY_THRESHOLD = JS.div (JS.ofZ 8) (JS.ofZ 10).
Proof. vm_compute. reflexivity. Qed.

Lemma uploadLimits_bytes : fileSize uploadLimits = 52428800.
Proof. reflexivity. Qed.

(** ** The storage selector *)

(** With both statistics read, the selector returns normally and its
    result is the negation of the test on line 64. *)
Lemma shouldUseMemoryStorage_sampled (H : host) (size free total : JS.number) (w : world) :
  os_freemem H = Normal free ->
  os_totalmem H = Normal total ->
  fst (shouldUseMemoryStorage H size w) =
  Normal (negb (JS.gt size sizeCutoff
                || JS.gt (memoryUsageRatio free total) MEMORY_THRESHOLD)).
Proof.
  intros Hfree Htotal.
  unfold shouldUseMemoryStorage, tryCatch, mbind, M_bind, lift.
  rewrite Hfree, Htotal. cbn [emit].
  destruct (JS.gt size sizeCutoff
            || JS.gt (memoryUsageRatio free total) MEMORY_THRESHOLD);
    reflexivity.
Qed.

Lemma selectedStorage_sampled (H : host) (size free total : JS.number) (w : world) :
  os_freemem H = Normal free ->
  os_totalmem H = Normal total ->
  selectedStorage H size w =
  Normal (if JS.gt size sizeCutoff
             || JS.gt (memoryUsageRatio free total) MEMORY_THRESHOLD
          then DiskStorage else MemoryStorage).
Proof.
  intros Hfree Htotal. unfold selectedStorage.
  rewrite (shouldUseMemoryStorage_sampled H size free total w Hfree Htotal).
  destruct (JS.gt size sizeCutoff
            || JS.gt (memoryUsageRatio free total) MEMORY_THRESHOLD);
    reflexivity.
Qed.

(** The threshold is the binary64 number nearest to 4/5: it has the form
    [m * 2^-53] with [m] less than half a unit away from [(4/5) * 2^53]. *)
Lemma MEMORY_THRESHOLD_rounds_four_fifths :
  exists m : positive,
    MEMORY_THRESHOLD = S754_finite false m (-53)
    /\ (2 * Z.abs (5 * Z.pos m - 4 * 2 ^ 53) < 5)%Z.
Proof. exists 7205759403792794%positive. split; [reflexivity|]. vm_compute. reflexivity. Qed.

(** C2.  With both memory statistics read, the selector chooses memory
    storage when the declared size is at most 15 MiB (15,728,640 bytes)
    and the usage ratio [1 - free/total] is at most 0.80; it chooses disk
    storage when the declared size exceeds 15 MiB or the ratio exceeds
    0.80; and at the boundary (size equal to 15 MiB, ratio equal to 0.80)
    it chooses memory storage.  The ratio is one minus the quotient of
    the two statistics, the size limit the integer 15,728,640, and the
    threshold the binary64 quotient of 8 by 10. *)
Theorem selector_thresholds
    (H : host) (fileSize freeMem totalMem : JS.number) (w : world) :
  os_freemem H = Normal freeMem ->
  os_totalmem H = Normal totalMem ->
  let ratio := JS.sub (JS.ofZ 1) (JS.div freeMem totalMem) in
  let limit := JS.ofZ 15728640 in
  let threshold := JS.div (JS.ofZ 8) (JS.ofZ 10) in
  (JS.le fileSize limit = true -> JS.le ratio threshold = true ->
   selectedStorage H fileSize w = Normal MemoryStorage)
  /\ (JS.gt fileSize limit = true \/ JS.gt ratio threshold = true ->
      selectedStorage H fileSize w = Normal DiskStorage)
  /\ (JS.eq fileSize limit = true -> JS.eq ratio threshold = true ->
      selectedStorage H fileSize w = Normal MemoryStorage).
Proof.
  intros Hfree Htotal ratio limit threshold.
  rewrite (selectedStorage_sampled H fileSize freeMem totalMem w Hfree Htotal).
  change (memoryUsageRatio freeMem totalMem) with ratio.
  rewrite sizeCutoff_15MiB, MEMORY_THRESHOLD_nearest.
  fold limit. fold threshold.
  assert (Hmem : JS.le fileSize limit = true ->
                 JS.le ratio threshold = true ->
                 Normal (if JS.gt fileSize limit || JS.gt ratio threshold
                         then DiskStorage else MemoryStorage)
                 = Normal MemoryStorage).
  { intros Hs Hr. rewrite (le_not_gt _ _ Hs), (le_not_gt _ _ Hr). reflexivity. }
  split; [exact Hmem|]. split.
  - intros [Hs|Hr].
    + rewrite Hs. reflexivity.
    + rewrite Hr, orb_true_r. reflexivity.
  - intros Hs Hr. apply Hmem; apply eq_le; assumption.
Qed.

(** With 10 GiB of memory: at 2 GiB free the computed ratio is the
    threshold, and a declared size of exactly 15 MiB is buffered in
    memory; at 8 GiB free (ratio 0.2) a declared size of 1 KiB is buffered
    in memory; at 1 GiB free (ratio 0.9) the same size goes to disk; and
    at 8 GiB free one byte more than 15 MiB goes to disk. *)
Lemma selector_thresholds_witness :
  JS.eq (JS.sub (JS.ofZ 1)
           (JS.div (JS.ofZ (2 * Sample.GiB)) (JS.ofZ (10 * Sample.GiB))))
        (JS.div (JS.ofZ 8) (JS.ofZ 10)) = true
  /\ selectedStorage Sample.atThreshold (JS.ofZ 15728640) Sample.start
     = Normal MemoryStorage
  /\ selectedStorage (Sample.idle NeverSettles Sample.noFault) (JS.ofZ 1024)
       Sample.start = Normal MemoryStorage
  /\ selectedStorage (Sample.busy NeverSettles Sample.noFault) (JS.ofZ 1024)
       Sample.start = Normal DiskStorage
  /\ selectedStorage (Sample.idle NeverSettles Sample.noFault) (JS.ofZ 15728641)
       Sample.start = Normal DiskStorage.
Proof.
  split; [vm_compute; reflexivity|].
  destruct (selector_thresholds Sample.atThreshold (JS.ofZ 15728640)
              (JS.ofZ (2 * Sample.GiB)) (JS.ofZ (10 * Sample.GiB)) Sample.start
              eq_refl eq_refl) as (_ & _ & Hboundary).
  destruct (selector_thresholds (Sample.idle NeverSettles Sample.noFault)
              (JS.ofZ 1024)
              (JS.ofZ (8 * Sample.GiB)) (JS.ofZ (10 * Sample.GiB)) Sample.start
              eq_refl eq_refl) as (Hmemory & _ & _).
  destruct (selector_thresholds (Sample.busy NeverSettles Sample.noFault)
              (JS.ofZ 1024)
              (JS.ofZ (1 * Sample.GiB)) (JS.ofZ (10 * Sample.GiB)) Sample.start
              eq_refl eq_refl) as (_ & Hpressure & _).
  destruct (selector_thresholds (Sample.idle NeverSettles Sample.noFault)
              (JS.ofZ 15728641)
              (JS.ofZ (8 * Sample.GiB)) (JS.ofZ (10 * Sample.GiB)) Sample.start
              eq_refl eq_refl) as (_ & Hlarge & _).
  split; [apply Hboundary; vm_compute; reflexivity|].
  split; [apply Hmemory; vm_compute; reflexivity|].
  split; [apply Hpressure; right; vm_compute; reflexivity|].
  apply Hlarge; left; vm_compute; reflexivity.
Defined.

(** C4.  Whatever the declared size, when reading the host memory
    statistics throws, the selector catches the error, logs it, returns
    [false] normally (nothing is thrown to the caller, no response is
    sent) and disk storage is chosen. *)
Theorem probe_failure_selects_disk (H : host) (fileSize : JS.number) (w : world) :
  (exists e, os_freemem H = Throw e) \/ (exists e, os_totalmem H = Throw e) ->
  exists e,
    shouldUseMemoryStorage H fileSize w =
      (Normal false,
       {| fs := fs w; useMemoryStorage := useMemoryStorage w;
          trace := trace w ++ [ConsoleError "Error checking memory:" e] |})
    /\ selectedStorage H fileSize w = Normal DiskStorage.
Proof.
  intros Hthrows.
  unfold selectedStorage, shouldUseMemoryStorage, tryCatch, mbind, M_bind, lift.
  destruct (os_freemem H) as [free|e1] eqn:Hfree.
  - destruct Hthrows as [[e He]|[e He]]; [discriminate|].
    rewrite He. exists e. split; reflexivity.
  - exists e1. split; reflexivity.
Qed.

Lemma probe_failure_selects_disk_witness :
  selectedStorage Sample.blind (JS.ofZ 1024) Sample.start = Normal DiskStorage.
Proof.
  destruct (probe_failure_selects_disk Sample.blind (JS.ofZ 1024) Sample.start)
    as (e & _ & Hdisk).
  - left. eexists. reflexivity.
  - exact Hdisk.
Defined.

(** C6, as stated, fails: a declared size of 15,000,001 bytes exceeds
    15,000,000, the probe succeeds with a usage ratio of 0.2, and the
    selector chooses memory storage. *)
Lemma selector_decimal_cutoff_counterexample :
  ~ (forall (H : host) (fileSize freeMem totalMem : JS.number) (w : world),
        os_freemem H = Normal freeMem ->
        os_totalmem H = Normal totalMem ->
        JS.gt fileSize (JS.ofZ 15000000) = true ->
        selectedStorage H fileSize w = Normal DiskStorage).
Proof.
  intros Hclaim.
  specialize (Hclaim (Sample.idle NeverSettles Sample.noFault) (JS.ofZ 15000001)
                (JS.ofZ (8 * Sample.GiB)) (JS.ofZ (10 * Sample.GiB)) Sample.start
                eq_refl eq_refl eq_refl).
  vm_compute in Hclaim. discriminate Hclaim.
Qed.

(** C6, amended.  The size cutoff is 15 MiB: every declared size greater
    than 15,728,640 bytes selects disk storage whatever the usage ratio,
    and a declared size of at most 15,728,640 bytes leaves the choice to
    the ratio test. *)
Theorem selector_binary_cutoff
    (H : host) (fileSize freeMem totalMem : JS.number) (w : world) :
  os_freemem H = Normal freeMem ->
  os_totalmem H = Normal totalMem ->
  (JS.gt fileSize (JS.ofZ 15728640) = true ->
   selectedStorage H fileSize w = Normal DiskStorage)
  /\ (JS.le fileSize (JS.ofZ 15728640) = true ->
      selectedStorage H fileSize w =
      Normal (if JS.gt (memoryUsageRatio freeMem totalMem) MEMORY_THRESHOLD
              then DiskStorage else MemoryStorage)).
Proof.
  intros Hfree Htotal.
  rewrite (selectedStorage_sampled H fileSize freeMem totalMem w Hfree Htotal).
  rewrite sizeCutoff_15MiB. split; intros Hs.
  - rewrite Hs. reflexivity.
  - rewrite (le_not_gt _ _ Hs). reflexivity.
Qed.

Lemma selector_binary_cutoff_witness :
  selectedStorage (Sample.idle NeverSettles Sample.noFault) (JS.ofZ 15728641) Sample.start
    = Normal DiskStorage
  /\ selectedStorage (Sample.idle NeverSettles Sample.noFault) (JS.ofZ 15000001) Sample.start
    = Normal MemoryStorage.
Proof.
  destruct (selector_binary_cutoff (Sample.idle NeverSettles Sample.noFault) (JS.ofZ 15728641)
              (JS.ofZ (8 * Sample.GiB)) (JS.ofZ (10 * Sample.GiB)) Sample.start
              eq_refl eq_refl) as [Hdisk _].
  destruct (selector_binary_cutoff (Sample.idle NeverSettles Sample.noFault) (JS.ofZ 15000001)
              (JS.ofZ (8 * Sample.GiB)) (JS.ofZ (10 * Sample.GiB)) Sample.start
              eq_refl eq_refl) as [_ Hmem].
  split.
  - apply Hdisk. vm_compute. reflexivity.
  - rewrite Hmem; vm_compute; reflexivity.
Defined.

(** C10.  When the Content-Length header is present and [parseInt] finds
    no number in it, the declared size is [NaN]; comparing it with the
    size cutoff gives [false] both for [>] and for [<=]; and, the memory
    statistics being read, the choice follows from the usage ratio alone:
    memory storage whenever the ratio is at most 0.80. *)
Theorem unparsable_content_length
    (H : host) (h : string) (freeMem totalMem : JS.number) (w : world) :
  JS.truthy h = true ->
  JS.parseInt h = JS.NaN ->
  os_freemem H = Normal freeMem ->
  os_totalmem H = Normal totalMem ->
  let req := {| content_length := Some h; req_file := None |} in
  let ratio := memoryUsageRatio freeMem totalMem in
  contentLength req = JS.NaN
  /\ JS.gt (contentLength req) sizeCutoff = false
  /\ JS.le (contentLength req) sizeCutoff = false
  /\ selectedStorage H (contentLength req) w =
     Normal (if JS.gt ratio MEMORY_THRESHOLD then DiskStorage else MemoryStorage)
  /\ (JS.le ratio MEMORY_THRESHOLD = true ->
      selectedStorage H (contentLength req) w = Normal MemoryStorage).
Proof.
  intros Hpresent Hnan Hfree Htotal req ratio.
  assert (Hsize : contentLength req = JS.NaN).
  { unfold contentLength, req. cbn [content_length]. rewrite Hpresent. exact Hnan. }
  rewrite Hsize.
  rewrite (selectedStorage_sampled H JS.NaN freeMem totalMem w Hfree Htotal).
  rewrite NaN_gt. cbn [orb]. fold ratio.
  repeat split; try reflexivity.
  intros Hr. rewrite (le_not_gt _ _ Hr). reflexivity.
Qed.

Lemma unparsable_content_length_witness :
  contentLength {| content_length := Some "abc"; req_file := None |} = JS.NaN
  /\ selectedStorage (Sample.idle NeverSettles Sample.noFault)
       (contentLength {| content_length := Some "abc"; req_file := None |})
       Sample.start = Normal MemoryStorage.
Proof.
  destruct (unparsable_content_length (Sample.idle NeverSettles Sample.noFault) "abc"
              (JS.ofZ (8 * Sample.GiB)) (JS.ofZ (10 * Sample.GiB)) Sample.start
              eq_refl eq_refl eq_refl eq_refl)
    as (Hnan & _ & _ & _ & Hmem).
  split; [exact Hnan|]. apply Hmem. vm_compute. reflexivity.
Defined.

(** ** Running a request *)

Lemma responses_app (a b : list event) :
  responses (a ++ b) = responses a ++ responses b.
Proof. apply omap_app. Qed.

Lemma relayCalls_app (a b : list event) :
  relayCalls (a ++ b) = relayCalls a ++ relayCalls b.
Proof. apply omap_app. Qed.

Lemma fileWrites_app (a b : list event) :
  fileWrites (a ++ b) = fileWrites a ++ fileWrites b.
Proof. apply omap_app. Qed.

Lemma console_silent (l : list event) :
  forallb isConsole l = true ->
  responses l = [] /\ relayCalls l = [] /\ fileWrites l = [].
Proof.
  induction l as [|ev l IH]; [easy|].
  cbn [forallb]. intros [Hev Hl]%andb_prop.
  destruct (IH Hl) as (Hr & Hc & Hw).
  destruct ev; try discriminate Hev;
    unfold responses, relayCalls, fileWrites in *; cbn; auto.
Qed.

Lemma truthy_path_join (dir name : string) : JS.truthy (path_join dir name) = true.
Proof. unfold path_join. destruct dir; reflexivity. Qed.

(** The selector never throws; it only writes to the console. *)
Lemma shouldUseMemoryStorage_run (H : host) (size : JS.number) (w : world) :
  exists (b : bool) (l : list event),
    forallb isConsole l = true
    /\ shouldUseMemoryStorage H size w =
       (Normal b,
        {| fs := fs w; useMemoryStorage := useMemoryStorage w;
           trace := trace w ++ l |}).
Proof.
  unfold shouldUseMemoryStorage, tryCatch, mbind, M_bind, lift.
  destruct (os_freemem H) as [free|e1].
  - destruct (os_totalmem H) as [total|e2].
    + cbn [emit].
      destruct (JS.gt size sizeCutoff
                || JS.gt (memoryUsageRatio free total) MEMORY_THRESHOLD).
      * exists false,
          [ConsoleLogMemoryStats free total (memoryUsageRatio free total);
           ConsoleLog "Using disk storage due to file size or memory pressure"].
        split; [reflexivity|].
        cbn. rewrite <- app_assoc. reflexivity.
      * exists true,
          [ConsoleLogMemoryStats free total (memoryUsageRatio free total)].
        split; reflexivity.
    + exists false, [ConsoleError "Error checking memory:" e2].
      split; reflexivity.
  - exists false, [ConsoleError "Error checking memory:" e1].
    split; reflexivity.
Qed.

(** [adaptiveUpload] records the decision in the shared flag and then
    dispatches on what multer reports. *)
Lemma adaptiveUpload_run (H : host) (req : request) (next : request -> M unit) (w : world) :
  exists (b : bool) (l : list event),
    forallb isConsole l = true
    /\ fst (shouldUseMemoryStorage H (contentLength req) w) = Normal b
    /\ adaptiveUpload H req next w =
       let w1 := {| fs := fs w; useMemoryStorage := b; trace := trace w ++ l |} in
       match multer_run H (uploadOptions b) with
       | MulterError err =>
           respond 400 (JObj [("error", JStr ("Multer error: " +:+ message err))]) w1
       | OtherError err =>
           respond 500 (JObj [("error", JStr ("Unknown error: " +:+ message err))]) w1
       | Accepted None => next req w1
       | Accepted (Some part) =>
           (f ← handleFile H (opt_storage (uploadOptions b)) part;
            next {| content_length := content_length req; req_file := Some f |}) w1
       end.
Proof.
  destruct (shouldUseMemoryStorage_run H (contentLength req) w) as (b & l & Hl & Hrun).
  exists b, l. split; [exact Hl|]. split; [rewrite Hrun; reflexivity|].
  unfold adaptiveUpload, mbind, M_bind at 1. rewrite Hrun.
  cbn [assignUseMemoryStorage readUseMemoryStorage M_bind fs useMemoryStorage trace].
  destruct (multer_run H (uploadOptions b)) as [err|err|[part|]]; reflexivity.
Qed.

(** ** Requests that never reach the relay *)

(** C7.  A request in which multer finds no file is answered with status
    400 and body [{error: "No file uploaded"}]; the relay is not called
    and nothing is written to the file system. *)
Theorem no_file_uploaded
    (H : host) (h : option string) (disk : gmap string string) (flag : bool) :
  multer_run H (optionsFor H h (initialWorld disk flag)) = Accepted None ->
  let run := postUpload H h (initialWorld disk flag) in
  fst run = Normal tt
  /\ responses (trace (snd run)) = [(400, JObj [("error", JStr "No file uploaded")])]
  /\ relayCalls (trace (snd run)) = []
  /\ fileWrites (trace (snd run)) = []
  /\ fs (snd run) = disk.
Proof.
  intros Hmulter run. subst run. unfold postUpload.
  destruct (adaptiveUpload_run H {| content_length := h; req_file := None |}
              (uploadHandler H) (initialWorld disk flag)) as (b & l & Hl & Hb & Hrun).
  unfold optionsFor in Hmulter. rewrite Hb in Hmulter.
  rewrite Hrun. cbv zeta. rewrite Hmulter.
  destruct (console_silent l Hl) as (Hr & Hc & Hw).
  cbn. rewrite responses_app, relayCalls_app, fileWrites_app, Hr, Hc, Hw.
  repeat split; reflexivity.
Qed.

Lemma no_file_uploaded_witness :
  responses (trace (snd (postUpload Sample.empty (Some "187") Sample.start)))
  = [(400, JObj [("error", JStr "No file uploaded")])].
Proof.
  destruct (no_file_uploaded Sample.empty (Some "187") ∅ true eq_refl)
    as (_ & Hresponse & _).
  exact Hresponse.
Defined.









(** ** Requests that reach the relay *)

Lemma optionsFor_engine (H : host) (h : option string) (w : world) (b : bool) :
  fst (shouldUseMemoryStorage H
         (contentLength {| content_length := h; req_file := None |}) w) = Normal b ->
  optionsFor H h w = uploadOptions b.
Proof. intros Hb. unfold optionsFor. rewrite Hb. reflexivity. Qed.

(** The complete run of a request whose file multer accepted into
    memory: the world it ends in, by how the relay and the deletion of
    the temp file turn out. *)
Lemma memory_upload_run
    (H : host) (h : option string) (disk : gmap string string) (flag : bool)
    (part : filePart) :
  let w := initialWorld disk flag in
  let p := tempPath H (part_originalname part) in
  opt_storage (optionsFor H h w) = MemoryStorage ->
  multer_run H (optionsFor H h w) = Accepted (Some part) ->
  writeFileSync_fault H p = None ->
  exists l : list event,
    forallb isConsole l = true
    /\ postUpload H h w =
       (Normal tt,
        let staged := [FsWrite p;
                       FilesUpload (Some p) (part_mimetype part) (part_originalname part)] in
        let failed e :=
          {| fs := <[p := part_content part]> disk; useMemoryStorage := true;
             trace := l ++ staged ++ [ConsoleError "Upload error:" e;
                                      Respond 500 (failureBody e true)] |} in
        match race (files_upload H) with
        | Normal uploadedFile =>
            match unlinkSync_fault H p with
            | None =>
                {| fs := delete p (<[p := part_content part]> disk);
                   useMemoryStorage := true;
                   trace := l ++ staged ++ [FsUnlink p;
                                            Respond 200 (successBody uploadedFile)] |}
            | Some e => failed e
            end
        | Throw e => failed e
        end).
Proof.
  intros w p Hengine Hmulter Hwrite. subst w. unfold postUpload.
  destruct (adaptiveUpload_run H {| content_length := h; req_file := None |}
              (uploadHandler H) (initialWorld disk flag)) as (b & l & Hl & Hb & Hrun).
  rewrite (optionsFor_engine H h _ b Hb) in Hengine, Hmulter.
  destruct b; [|discriminate Hengine].
  exists l. split; [exact Hl|].
  rewrite Hrun. cbv zeta. rewrite Hmulter.
  unfold uploadHandler, tryCatch, mbind, M_bind, handleFile, mret, M_ret.
  cbn -[race]. fold p. rewrite Hwrite.
  unfold putFile. cbn -[race].
  destruct (race (files_upload H)) as [uploadedFile|e].
  - unfold unlinkSync, mbind, M_bind, lookupFile, removeFile, respond, emit, throw.
    destruct (unlinkSync_fault H p) as [e|]; cbn.
    + rewrite <- !app_assoc. reflexivity.
    + rewrite lookup_insert_eq. cbn. rewrite <- !app_assoc. reflexivity.
  - cbn. rewrite <- !app_assoc. reflexivity.
Qed.


(** The complete run of a request whose file multer stored on disk. *)
Lemma disk_upload_run
    (H : host) (h : option string) (disk : gmap string string) (flag : bool)
    (part : filePart) :
  let w := initialWorld disk flag in
  let p := diskPath H part in
  opt_storage (optionsFor H h w) = DiskStorage ->
  multer_run H (optionsFor H h w) = Accepted (Some part) ->
  exists l : list event,
    forallb isConsole l = true
    /\ postUpload H h w =
       (Normal tt,
        let staged := [FsWrite p;
                       FilesUpload (Some p) (part_mimetype part) (part_originalname part)] in
        let failed e :=
          staged ++ [ConsoleError "Upload error:" e; Respond 500 (failureBody e false)] in
        match race (files_upload H), unlinkSync_fault H p with
        | Normal uploadedFile, None =>
            {| fs := delete p (<[p := part_content part]> disk);
               useMemoryStorage := false;
               trace := l ++ staged ++ [FsUnlink p;
                                        Respond 200 (successBody uploadedFile)] |}
        | Normal _, Some e =>
            {| fs := <[p := part_content part]> disk; useMemoryStorage := false;
               trace := l ++ failed e ++ [ConsoleError "Failed to clean up file:" e] |}
        | Throw e, None =>
            {| fs := delete p (<[p := part_content part]> disk);
               useMemoryStorage := false;
               trace := l ++ failed e ++ [FsUnlink p] |}
        | Throw e, Some e' =>
            {| fs := <[p := part_content part]> disk; useMemoryStorage := false;
               trace := l ++ failed e ++ [ConsoleError "Failed to clean up file:" e'] |}
        end).
Proof.
  intros w p Hengine Hmulter. subst w. unfold postUpload.
  destruct (adaptiveUpload_run H {| content_length := h; req_file := None |}
              (uploadHandler H) (initialWorld disk flag)) as (b & l & Hl & Hb & Hrun).
  rewrite (optionsFor_engine H h _ b Hb) in Hengine, Hmulter.
  destruct b; [discriminate Hengine|].
  exists l. split; [exact Hl|].
  rewrite Hrun. cbv zeta. rewrite Hmulter.
  assert (Hp : JS.truthy p = true) by apply truthy_path_join.
  unfold handleFile, uploadHandler.
  unfold tryCatch, mbind, M_bind, mret, M_ret, putFile.
  cbn -[race]. fold p. rewrite Hp.
  unfold unlinkSync, mbind, M_bind, lookupFile, removeFile, respond, emit, throw.
  destruct (race (files_upload H)) as [uploadedFile|e];
    destruct (unlinkSync_fault H p) as [e'|]; cbn;
    rewrite ?lookup_insert_eq; cbn; rewrite <- ?app_assoc; reflexivity.
Qed.

Lemma unlinkedBeforeResponse_console (p : string) (l tr : list event) :
  forallb isConsole l = true ->
  unlinkedBeforeResponse p (l ++ tr) = unlinkedBeforeResponse p tr.
Proof.
  induction l as [|ev l IH]; [reflexivity|].
  cbn [forallb]. intros [Hev Hl]%andb_prop.
  destruct ev; try discriminate Hev; cbn; auto.
Qed.

Lemma race_timeout (o : relayOutcome) :
  settlesWithin UPLOAD_TIMEOUT o = false -> race o = Throw timeoutError.
Proof.
  destruct o as [t metadata|t e|]; cbn [settlesWithin race]; intros Hlate;
    try reflexivity;
    rewrite Hlate; reflexivity.
Qed.

Lemma race_resolved (t : N) (metadata : json) :
  (t < UPLOAD_TIMEOUT)%N -> race (Resolves t metadata) = Normal metadata.
Proof.
  intros Hearly. cbn [race].
  assert (Hwithin : (t <=? UPLOAD_TIMEOUT)%N = true) by (apply N.leb_le; lia).
  rewrite Hwithin. reflexivity.
Qed.

(** C1 is violated by the code.  A request buffered in memory creates the
    temp file [uploads/temp-<now>-<name>]; when the relay fails (by error
    or by timeout) the handler answers 500 and never removes that file:
    it is written once, not unlinked before the response, and still
    present in the uploads directory when the request has completed. *)
Theorem memory_mode_failure_keeps_temp_file
    (H : host) (h : option string) (disk : gmap string string) (flag : bool)
    (part : filePart) (e : jsError) :
  let w := initialWorld disk flag in
  let p := tempPath H (part_originalname part) in
  opt_storage (optionsFor H h w) = MemoryStorage ->
  multer_run H (optionsFor H h w) = Accepted (Some part) ->
  writeFileSync_fault H p = None ->
  race (files_upload H) = Throw e ->
  let w' := snd (postUpload H h w) in
  fileWrites (trace w') = [p]
  /\ responses (trace w') = [(500, failureBody e true)]
  /\ unlinkedBeforeResponse p (trace w') = false
  /\ fs w' !! p = Some (part_content part).
Proof.
  intros w p Hengine Hmulter Hwrite Hrace w'. subst w'.
  destruct (memory_upload_run H h disk flag part Hengine Hmulter Hwrite)
    as (l & Hl & Hrun).
  fold w in Hrun. rewrite Hrun. cbv zeta. rewrite Hrace. cbn [snd trace fs].
  fold p.
  destruct (console_silent l Hl) as (Hr & _ & Hw).
  rewrite fileWrites_app, responses_app, Hr, Hw.
  rewrite (unlinkedBeforeResponse_console p l _ Hl).
  repeat split; try reflexivity.
  apply lookup_insert_eq.
Qed.

Lemma memory_mode_failure_keeps_temp_file_witness :
  responses (trace (snd (postUpload Sample.refused (Some "5") Sample.start)))
  = [(500, failureBody (mkError "403 Forbidden") true)]
  /\ fs (snd (postUpload Sample.refused (Some "5") Sample.start))
       !! "/srv/app/uploads/temp-1700000000000-notes.txt" = Some "hello".
Proof.
  destruct (memory_mode_failure_keeps_temp_file Sample.refused (Some "5") ∅ true
              Sample.part (mkError "403 Forbidden") eq_refl eq_refl eq_refl eq_refl)
    as (_ & Hresponse & _ & Hleft).
  split; [exact Hresponse | exact Hleft].
Defined.

(** On the same failure a request stored on disk does lose its file, but
    only after the response has been sent. *)
Lemma disk_mode_failure_unlinks_after_response
    (H : host) (h : option string) (disk : gmap string string) (flag : bool)
    (part : filePart) (e : jsError) :
  let w := initialWorld disk flag in
  let p := diskPath H part in
  opt_storage (optionsFor H h w) = DiskStorage ->
  multer_run H (optionsFor H h w) = Accepted (Some part) ->
  unlinkSync_fault H p = None ->
  race (files_upload H) = Throw e ->
  let w' := snd (postUpload H h w) in
  responses (trace w') = [(500, failureBody e false)]
  /\ unlinkedBeforeResponse p (trace w') = false
  /\ fs w' !! p = None.
Proof.
  intros w p Hengine Hmulter Hunlink Hrace w'. subst w'.
  destruct (disk_upload_run H h disk flag part Hengine Hmulter) as (l & Hl & Hrun).
  fold w in Hrun. rewrite Hrun. cbv zeta. fold p. rewrite Hrace, Hunlink.
  cbn [snd trace fs].
  destruct (console_silent l Hl) as (Hr & _ & _).
  rewrite responses_app, Hr.
  rewrite (unlinkedBeforeResponse_console p l _ Hl).
  repeat split; try reflexivity.
  apply lookup_delete_eq.
Qed.

(** ** The timeout *)

(** C3 is violated by the code in memory mode.  When the relay has not
    settled within 180 s the timeout wins the race and the client receives
    status 500 with [details] equal to "Gemini API upload timeout"; but the
    temp file that was written for the relay is still in the uploads
    directory after the response. *)
Theorem memory_mode_timeout_keeps_temp_file
    (H : host) (h : option string) (disk : gmap string string) (flag : bool)
    (part : filePart) :
  let w := initialWorld disk flag in
  let p := tempPath H (part_originalname part) in
  opt_storage (optionsFor H h w) = MemoryStorage ->
  multer_run H (optionsFor H h w) = Accepted (Some part) ->
  writeFileSync_fault H p = None ->
  settlesWithin UPLOAD_TIMEOUT (files_upload H) = false ->
  let w' := snd (postUpload H h w) in
  relayCalls (trace w') = [Some p]
  /\ responses (trace w') = [(500, failureBody timeoutError true)]
  /\ jsonField "details" (failureBody timeoutError true)
     = Some (JStr "Gemini API upload timeout")
  /\ fs w' !! p = Some (part_content part).
Proof.
  intros w p Hengine Hmulter Hwrite Hlate w'. subst w'.
  destruct (memory_upload_run H h disk flag part Hengine Hmulter Hwrite)
    as (l & Hl & Hrun).
  fold w in Hrun. rewrite Hrun. cbv zeta.
  rewrite (race_timeout _ Hlate). cbn [snd trace fs]. fold p.
  destruct (console_silent l Hl) as (Hr & Hc & _).
  rewrite relayCalls_app, responses_app, Hr, Hc.
  repeat split; try reflexivity.
  apply lookup_insert_eq.
Qed.

Lemma memory_mode_timeout_keeps_temp_file_witness :
  responses (trace (snd (postUpload Sample.stalled (Some "5") Sample.start)))
  = [(500, failureBody timeoutError true)]
  /\ fs (snd (postUpload Sample.stalled (Some "5") Sample.start))
       !! "/srv/app/uploads/temp-1700000000000-notes.txt" = Some "hello".
Proof.
  destruct (memory_mode_timeout_keeps_temp_file Sample.stalled (Some "5") ∅ true
              Sample.part eq_refl eq_refl eq_refl eq_refl)
    as (_ & Hresponse & _ & Hleft).
  split; [exact Hresponse | exact Hleft].
Defined.

(** In disk mode the timeout gives the same response and the file is
    removed, provided its deletion succeeds. *)
Lemma disk_mode_timeout_removes_file
    (H : host) (h : option string) (disk : gmap string string) (flag : bool)
    (part : filePart) :
  let w := initialWorld disk flag in
  let p := diskPath H part in
  opt_storage (optionsFor H h w) = DiskStorage ->
  multer_run H (optionsFor H h w) = Accepted (Some part) ->
  unlinkSync_fault H p = None ->
  settlesWithin UPLOAD_TIMEOUT (files_upload H) = false ->
  let w' := snd (postUpload H h w) in
  responses (trace w') = [(500, failureBody timeoutError false)]
  /\ fs w' !! p = None.
Proof.
  intros w p Hengine Hmulter Hunlink Hlate w'. subst w'.
  destruct (disk_mode_failure_unlinks_after_response H h disk flag part timeoutError
              Hengine Hmulter Hunlink (race_timeout _ Hlate)) as (Hr & _ & Hgone).
  split; assumption.
Qed.

(** ** Failures of the cleanup itself *)

(** Shared by C5 and C8: the response when the relay has succeeded and
    the deletion of the relayed file throws. *)
Lemma relay_success_unlink_throws
    (H : host) (h : option string) (disk : gmap string string) (flag : bool)
    (part : filePart) (uploadedFile : json) (e : jsError) :
  let w := initialWorld disk flag in
  let engine := opt_storage (optionsFor H h w) in
  let p := relayPath H engine part in
  multer_run H (optionsFor H h w) = Accepted (Some part) ->
  (engine = MemoryStorage -> writeFileSync_fault H p = None) ->
  race (files_upload H) = Normal uploadedFile ->
  unlinkSync_fault H p = Some e ->
  responses (trace (snd (postUpload H h w))) =
  [(500, failureBody e (isMemory engine))].
Proof.
  intros w engine p Hmulter Hwrite Hrace Hunlink. subst p engine.
  revert Hwrite Hunlink.
  destruct (opt_storage (optionsFor H h w)) eqn:Hengine;
    cbn [relayPath isMemory]; intros Hwrite Hunlink.
  - destruct (disk_upload_run H h disk flag part Hengine Hmulter) as (l & Hl & Hrun).
    fold w in Hrun. rewrite Hrun. cbv zeta. rewrite Hrace, Hunlink.
    cbn [snd trace].
    destruct (console_silent l Hl) as (Hr & _ & _).
    rewrite responses_app, Hr. reflexivity.
  - destruct (memory_upload_run H h disk flag part Hengine Hmulter (Hwrite eq_refl))
      as (l & Hl & Hrun).
    fold w in Hrun. rewrite Hrun. cbv zeta. rewrite Hrace, Hunlink.
    cbn [snd trace].
    destruct (console_silent l Hl) as (Hr & _ & _).
    rewrite responses_app, Hr. reflexivity.
Qed.

(** C5 is violated by the code on the success path.  When the relay has
    succeeded and the deletion of the file used for the relay throws, the
    error reaches the handler's [catch]: the client receives status 500
    whose [details] is the deletion error, not the success response. *)
Theorem cleanup_failure_replaces_success
    (H : host) (h : option string) (disk : gmap string string) (flag : bool)
    (part : filePart) (uploadedFile : json) (e : jsError) :
  let w := initialWorld disk flag in
  let engine := opt_storage (optionsFor H h w) in
  let p := relayPath H engine part in
  multer_run H (optionsFor H h w) = Accepted (Some part) ->
  (engine = MemoryStorage -> writeFileSync_fault H p = None) ->
  race (files_upload H) = Normal uploadedFile ->
  unlinkSync_fault H p = Some e ->
  responses (trace (snd (postUpload H h w))) =
  [(500, failureBody e (isMemory engine))].
Proof.
  intros w engine p Hmulter Hwrite Hrace Hunlink.
  exact (relay_success_unlink_throws H h disk flag part uploadedFile e
           Hmulter Hwrite Hrace Hunlink).
Qed.

Lemma cleanup_failure_replaces_success_witness :
  responses (trace (snd (postUpload Sample.stuck (Some "5") Sample.start)))
  = [(500, failureBody (mkError "EPERM: operation not permitted, unlink") true)].
Proof.
  exact (cleanup_failure_replaces_success Sample.stuck (Some "5") ∅ true
           Sample.part Sample.metadata
           (mkError "EPERM: operation not permitted, unlink")
           eq_refl (fun _ => eq_refl) eq_refl eq_refl).
Defined.

(** On the failure path the cleanup is guarded: when the relay has failed
    and the deletion of multer's file throws too, the response carries
    the relay's error and the deletion error is only logged. *)
Lemma cleanup_failure_keeps_primary_error
    (H : host) (h : option string) (disk : gmap string string) (flag : bool)
    (part : filePart) (e e' : jsError) :
  let w := initialWorld disk flag in
  let p := diskPath H part in
  opt_storage (optionsFor H h w) = DiskStorage ->
  multer_run H (optionsFor H h w) = Accepted (Some part) ->
  race (files_upload H) = Throw e ->
  unlinkSync_fault H p = Some e' ->
  let run := postUpload H h w in
  fst run = Normal tt
  /\ responses (trace (snd run)) = [(500, failureBody e false)]
  /\ last (trace (snd run)) = Some (ConsoleError "Failed to clean up file:" e').
Proof.
  intros w p Hengine Hmulter Hrace Hunlink run. subst run.
  destruct (disk_upload_run H h disk flag part Hengine Hmulter) as (l & Hl & Hrun).
  fold w in Hrun. rewrite Hrun. cbv zeta. fold p. rewrite Hrace, Hunlink.
  cbn [fst snd trace].
  destruct (console_silent l Hl) as (Hr & _ & _).
  rewrite responses_app, Hr.
  repeat split; try reflexivity.
  rewrite last_app. reflexivity.
Qed.

(** ** The success response *)

(** C8 is violated by the code when the deletion of the temp file throws.
    For a relay call that resolves before the 180 s timeout the response
    is status 200 with [message] "File uploaded to Gemini Files API" and
    the provider's metadata unmodified exactly when that deletion
    succeeds; when it throws, the response is the 500 failure body. *)
Theorem relay_success_response
    (H : host) (h : option string) (disk : gmap string string) (flag : bool)
    (part : filePart) (t : N) (uploadedFile : json) :
  let w := initialWorld disk flag in
  let engine := opt_storage (optionsFor H h w) in
  let p := relayPath H engine part in
  multer_run H (optionsFor H h w) = Accepted (Some part) ->
  (engine = MemoryStorage -> writeFileSync_fault H p = None) ->
  files_upload H = Resolves t uploadedFile ->
  (t < UPLOAD_TIMEOUT)%N ->
  responses (trace (snd (postUpload H h w))) =
  [match unlinkSync_fault H p with
   | None => (200, successBody uploadedFile)
   | Some e => (500, failureBody e (isMemory engine))
   end]
  /\ jsonField "message" (successBody uploadedFile)
     = Some (JStr "File uploaded to Gemini Files API")
  /\ jsonField "metadata" (successBody uploadedFile) = Some uploadedFile.
Proof.
  intros w engine p Hmulter Hwrite Hrelay Hearly.
  split; [|split; reflexivity].
  assert (Hrace : race (files_upload H) = Normal uploadedFile).
  { rewrite Hrelay. apply race_resolved. exact Hearly. }
  destruct (unlinkSync_fault H p) as [e|] eqn:Hunlink.
  - exact (relay_success_unlink_throws H h disk flag part uploadedFile e
             Hmulter Hwrite Hrace Hunlink).
  - subst p engine. revert Hwrite Hunlink.
    destruct (opt_storage (optionsFor H h w)) eqn:Hengine;
      cbn [relayPath isMemory]; intros Hwrite Hunlink.
    + destruct (disk_upload_run H h disk flag part Hengine Hmulter) as (l & Hl & Hrun).
      fold w in Hrun. rewrite Hrun. cbv zeta. rewrite Hrace, Hunlink.
      cbn [snd trace].
      destruct (console_silent l Hl) as (Hr & _ & _).
      rewrite responses_app, Hr. reflexivity.
    + destruct (memory_upload_run H h disk flag part Hengine Hmulter (Hwrite eq_refl))
        as (l & Hl & Hrun).
      fold w in Hrun. rewrite Hrun. cbv zeta. rewrite Hrace, Hunlink.
      cbn [snd trace].
      destruct (console_silent l Hl) as (Hr & _ & _).
      rewrite responses_app, Hr. reflexivity.
Qed.

Lemma relay_success_response_witness :
  responses (trace (snd (postUpload Sample.atThreshold (Some "1024") Sample.start)))
  = [(200, successBody Sample.metadata)]
  /\ responses (trace (snd (postUpload Sample.stuck (Some "1024") Sample.start)))
     = [(500, failureBody (mkError "EPERM: operation not permitted, unlink") true)].
Proof.
  split.
  - exact (proj1 (relay_success_response Sample.atThreshold (Some "1024") ∅ true
                    Sample.part 1200 Sample.metadata
                    eq_refl (fun _ => eq_refl) eq_refl eq_refl)).
  - exact (proj1 (relay_success_response Sample.stuck (Some "1024") ∅ true
                    Sample.part 1200 Sample.metadata
                    eq_refl (fun _ => eq_refl) eq_refl eq_refl)).
Defined.

(** * Further properties of the application *)

(** ** Cross-origin policy *)

(** X1.  The origin function lets a request through exactly when it has
    no Origin header, an empty one, or one that is, character for
    character, one of the four listed origins; every other origin is
    refused with the error "Not allowed by CORS". *)
Theorem cors_policy (origin : option string) :
  (corsOrigin origin = Normal true <->
   origin = None \/ origin = Some "" \/ exists o, origin = Some o /\ In o allowedOrigins)
  /\ (corsOrigin origin = Normal true
      \/ corsOrigin origin = Throw (mkError "Not allowed by CORS")).
Proof.
  destruct origin as [o|]; [|split; [split; auto|left; reflexivity]].
  unfold corsOrigin.
  destruct o as [|c o']; [split; [split; auto|left; reflexivity]|].
  cbn [JS.truthy negb].
  destruct (existsb (String.eqb (String c o')) allowedOrigins) eqn:Hlisted.
  - split; [|left; reflexivity]. split; [|reflexivity].
    intros _. right. right. exists (String c o'). split; [reflexivity|].
    apply existsb_exists in Hlisted as (o & Hin & Heq).
    apply String.eqb_eq in Heq. subst o. exact Hin.
  - split; [|right; reflexivity]. split; [discriminate|].
    intros [Habsent|[Hempty|(o & Ho & Hin)]]; try discriminate.
    injection Ho as <-.
    assert (Htrue : existsb (String.eqb (String c o')) allowedOrigins = true).
    { apply existsb_exists. exists (String c o'). split; [exact Hin|].
      apply String.eqb_refl. }
    congruence.
Qed.

(** ** Runs from an arbitrary world *)

Lemma fresh_rebase (w w' : world) : fresh (rebase w w') = fresh w'.
Proof. reflexivity. Qed.

Lemma rebase_rebase (w w1 w2 : world) :
  rebase (rebase w w1) w2 = rebase w (rebase w1 w2).
Proof. unfold rebase. cbn. rewrite app_assoc. reflexivity. Qed.

Lemma rebase_fresh (w : world) : rebase (fresh w) w = w.
Proof. destruct w. reflexivity. Qed.

Lemma framed_ret {A : Type} (a : A) : traceFramed (mret a).
Proof. intros w. unfold mret, M_ret, rebase. cbn. rewrite app_nil_r. destruct w; reflexivity. Qed.

Lemma framed_throw {A : Type} (e : jsError) : traceFramed (@throw A e).
Proof. intros w. unfold throw, rebase. cbn. rewrite app_nil_r. destruct w; reflexivity. Qed.

Lemma framed_lift {A : Type} (c : completion A) : traceFramed (lift c).
Proof. intros w. unfold lift, rebase. cbn. rewrite app_nil_r. destruct w; reflexivity. Qed.

Lemma framed_emit (ev : event) : traceFramed (emit ev).
Proof. intros w. reflexivity. Qed.

Lemma framed_readUseMemoryStorage : traceFramed readUseMemoryStorage.
Proof.
  intros w. unfold readUseMemoryStorage, rebase. cbn.
  rewrite app_nil_r. destruct w; reflexivity.
Qed.

Lemma framed_assignUseMemoryStorage (b : bool) : traceFramed (assignUseMemoryStorage b).
Proof.
  intros w. unfold assignUseMemoryStorage, rebase. cbn.
  rewrite app_nil_r. reflexivity.
Qed.

Lemma framed_putFile (p data : string) : traceFramed (putFile p data).
Proof. intros w. reflexivity. Qed.

Lemma framed_removeFile (p : string) : traceFramed (removeFile p).
Proof. intros w. reflexivity. Qed.

Lemma framed_lookupFile (p : string) : traceFramed (lookupFile p).
Proof.
  intros w. unfold lookupFile, rebase. cbn.
  rewrite app_nil_r. destruct w; reflexivity.
Qed.

Lemma framed_bind {A B : Type} (c : M A) (f : A -> M B) :
  traceFramed c -> (forall a, traceFramed (f a)) -> traceFramed (c ≫= f).
Proof.
  intros Hc Hf w. unfold mbind, M_bind.
  rewrite (Hc w). destruct (c (fresh w)) as [[a|e] w1]; cbn [fst snd].
  - rewrite (Hf a (rebase w w1)), fresh_rebase, rebase_rebase.
    rewrite (Hf a w1). reflexivity.
  - reflexivity.
Qed.

Lemma framed_tryCatch {A : Type} (body : M A) (handler : jsError -> M A) :
  traceFramed body -> (forall e, traceFramed (handler e)) ->
  traceFramed (tryCatch body handler).
Proof.
  intros Hb Hh w. unfold tryCatch.
  rewrite (Hb w). destruct (body (fresh w)) as [[a|e] w1]; cbn [fst snd].
  - reflexivity.
  - rewrite (Hh e (rebase w w1)), fresh_rebase, rebase_rebase.
    rewrite (Hh e w1). reflexivity.
Qed.

Ltac framed :=
  repeat first
    [ apply framed_ret | apply framed_throw | apply framed_lift
    | apply framed_emit | apply framed_readUseMemoryStorage
    | apply framed_assignUseMemoryStorage | apply framed_putFile
    | apply framed_removeFile | apply framed_lookupFile
    | apply framed_bind | apply framed_tryCatch
    | progress intros
    | match goal with
      | |- traceFramed (match ?x with _ => _ end) => destruct x
      | |- traceFramed (if ?x then _ else _) => destruct x
      end ].

Lemma framed_writeFileSync (H : host) (p : string) (data : option string) :
  traceFramed (writeFileSync H p data).
Proof. unfold writeFileSync. framed. Qed.

Lemma framed_unlinkSync (H : host) (p : option string) :
  traceFramed (unlinkSync H p).
Proof. unfold unlinkSync. framed. Qed.

Lemma framed_shouldUseMemoryStorage (H : host) (size : JS.number) :
  traceFramed (shouldUseMemoryStorage H size).
Proof. unfold shouldUseMemoryStorage. framed. Qed.

Lemma framed_handleFile (H : host) (engine : storageEngine) (f : filePart) :
  traceFramed (handleFile H engine f).
Proof. unfold handleFile. framed. Qed.

Lemma framed_uploadHandler (H : host) (req : request) :
  traceFramed (uploadHandler H req).
Proof.
  unfold uploadHandler, respond.
  apply framed_tryCatch; [|intros err].
  - destruct (req_file req) as [f|]; [|apply framed_emit].
    apply framed_bind; [apply framed_readUseMemoryStorage|intros useMemory].
    apply framed_bind.
    { destruct useMemory; [|apply framed_ret].
      apply framed_bind; [apply framed_writeFileSync|intros _; apply framed_ret]. }
    intros tempFilePath.
    apply framed_bind; [apply framed_emit|intros _].
    apply framed_bind; [apply framed_lift|intros uploadedFile].
    apply framed_bind; [apply framed_unlinkSync|intros _; apply framed_emit].
  - apply framed_bind; [apply framed_emit|intros _].
    apply framed_bind; [apply framed_readUseMemoryStorage|intros useMemory].
    apply framed_bind; [apply framed_emit|intros _].
    destruct (req_file req) as [f|]; [|apply framed_ret].
    destruct (path f) as [p|]; [|apply framed_ret].
    destruct (negb useMemory && JS.truthy p); [|apply framed_ret].
    apply framed_tryCatch; [apply framed_unlinkSync|intros e; apply framed_emit].
Qed.

Lemma framed_adaptiveUpload (H : host) (req : request) (next : request -> M unit) :
  (forall r, traceFramed (next r)) -> traceFramed (adaptiveUpload H req next).
Proof.
  intros Hnext. unfold adaptiveUpload, respond.
  apply framed_bind; [apply framed_shouldUseMemoryStorage|intros decision].
  apply framed_bind; [apply framed_assignUseMemoryStorage|intros _].
  apply framed_bind; [apply framed_readUseMemoryStorage|intros useMemory].
  cbv zeta.
  destruct (multer_run H (uploadOptions useMemory)) as [err|err|[part|]].
  - apply framed_emit.
  - apply framed_emit.
  - apply framed_bind; [apply framed_handleFile|intros f; apply Hnext].
  - apply Hnext.
Qed.

Lemma framed_postUpload (H : host) (h : option string) :
  traceFramed (postUpload H h).
Proof.
  unfold postUpload. apply framed_adaptiveUpload. apply framed_uploadHandler.
Qed.

Lemma bind_run {A B : Type} (c : M A) (f : A -> M B) (w : world) :
  (c ≫= f) w =
  match c w with
  | (Normal a, w') => f a w'
  | (Throw e, w') => (Throw e, w')
  end.
Proof. reflexivity. Qed.

(** The selector's result and console output do not depend on the world
    it runs in. *)
Lemma shouldUseMemoryStorage_uniform (H : host) (size : JS.number) :
  exists (b : bool) (l : list event),
    forallb isConsole l = true
    /\ forall w, shouldUseMemoryStorage H size w =
       (Normal b,
        {| fs := fs w; useMemoryStorage := useMemoryStorage w;
           trace := trace w ++ l |}).
Proof.
  unfold shouldUseMemoryStorage, tryCatch, mbind, M_bind, lift.
  destruct (os_freemem H) as [free|e1].
  - destruct (os_totalmem H) as [total|e2].
    + cbn [emit].
      destruct (JS.gt size sizeCutoff
                || JS.gt (memoryUsageRatio free total) MEMORY_THRESHOLD).
      * exists false,
          [ConsoleLogMemoryStats free total (memoryUsageRatio free total);
           ConsoleLog "Using disk storage due to file size or memory pressure"].
        split; [reflexivity|]. intros w.
        cbn. rewrite <- app_assoc. reflexivity.
      * exists true,
          [ConsoleLogMemoryStats free total (memoryUsageRatio free total)].
        split; reflexivity.
    + exists false, [ConsoleError "Error checking memory:" e2].
      split; reflexivity.
  - exists false, [ConsoleError "Error checking memory:" e1].
    split; reflexivity.
Qed.

(** The shared flag is assigned before it is read: the flag a request
    finds does not influence its run. *)
Lemma postUpload_ignores_flag (H : host) (h : option string)
    (disk : gmap string string) (b1 b2 : bool) (tr : list event) :
  postUpload H h {| fs := disk; useMemoryStorage := b1; trace := tr |}
  = postUpload H h {| fs := disk; useMemoryStorage := b2; trace := tr |}.
Proof.
  unfold postUpload, adaptiveUpload.
  destruct (shouldUseMemoryStorage_uniform H
              (contentLength {| content_length := h; req_file := None |}))
    as (b & l & _ & Hrun).
  rewrite !bind_run, !Hrun. reflexivity.
Qed.

(** A run from any world, in terms of the run from an empty trace. *)
Lemma sequential_requests_frame
    (H : host) (h : option string) (w : world) (flag : bool) :
  postUpload H h w =
  (fst (postUpload H h (initialWorld (fs w) flag)),
   rebase w (snd (postUpload H h (initialWorld (fs w) flag)))).
Proof.
  rewrite (framed_postUpload H h w). unfold fresh, initialWorld.
  rewrite (postUpload_ignores_flag H h (fs w) (useMemoryStorage w) flag []).
  reflexivity.
Qed.

(** X2.  Requests served one after the other do not influence each other
    through the process state.  A request that follows another returns,
    leaves the file system and the flag, and answers exactly as it does
    when run alone on the file system the first one left, whatever value
    the shared flag [useMemoryStorage] was left with; its events come
    after those of the first. *)
Theorem sequential_requests_independent
    (H1 H2 : host) (h1 h2 : option string) (disk : gmap string string)
    (flag flag' : bool) :
  let w1 := snd (postUpload H1 h1 (initialWorld disk flag)) in
  let alone := postUpload H2 h2 (initialWorld (fs w1) flag') in
  let after := postUpload H2 h2 w1 in
  fst after = fst alone
  /\ fs (snd after) = fs (snd alone)
  /\ useMemoryStorage (snd after) = useMemoryStorage (snd alone)
  /\ trace (snd after) = trace w1 ++ trace (snd alone)
  /\ responses (trace (snd after)) =
     responses (trace w1) ++ responses (trace (snd alone)).
Proof.
  cbv zeta.
  rewrite (sequential_requests_frame H2 h2
             (snd (postUpload H1 h1 (initialWorld disk flag))) flag').
  cbn [fst snd rebase fs useMemoryStorage trace].
  rewrite responses_app. repeat split; reflexivity.
Qed.

(** ** The complete behaviour of a request *)

Lemma memory_write_fault_run
    (H : host) (h : option string) (disk : gmap string string) (flag : bool)
    (part : filePart) (e : jsError) :
  let w := initialWorld disk flag in
  let p := tempPath H (part_originalname part) in
  opt_storage (optionsFor H h w) = MemoryStorage ->
  multer_run H (optionsFor H h w) = Accepted (Some part) ->
  writeFileSync_fault H p = Some e ->
  exists l : list event,
    forallb isConsole l = true
    /\ postUpload H h w =
       (Normal tt,
        let answer := [ConsoleError "Upload error:" e;
                       Respond 500 (failureBody e true)] in
        match writeFileSync_partial H p with
        | Some remains =>
            {| fs := <[p := remains]> disk; useMemoryStorage := true;
               trace := l ++ [FsWrite p] ++ answer |}
        | None =>
            {| fs := disk; useMemoryStorage := true; trace := l ++ answer |}
        end).
Proof.
  intros w p Hengine Hmulter Hwrite. subst w. unfold postUpload.
  destruct (adaptiveUpload_run H {| content_length := h; req_file := None |}
              (uploadHandler H) (initialWorld disk flag)) as (b & l & Hl & Hb & Hrun).
  rewrite (optionsFor_engine H h _ b Hb) in Hengine, Hmulter.
  destruct b; [|discriminate Hengine].
  exists l. split; [exact Hl|].
  rewrite Hrun. cbv zeta. rewrite Hmulter.
  unfold uploadHandler, writeFileSync, tryCatch, mbind, M_bind, handleFile,
    mret, M_ret.
  cbn -[race]. fold p. rewrite Hwrite.
  destruct (writeFileSync_partial H p) as [remains|];
    cbn; rewrite <- !app_assoc; reflexivity.
Qed.

Lemma postUpload_run
    (H : host) (h : option string) (disk : gmap string string) (flag : bool) :
  let w := initialWorld disk flag in
  let options := optionsFor H h w in
  let useMemory := isMemory (opt_storage options) in
  exists l : list event,
    forallb isConsole l = true
    /\ postUpload H h w =
       (Normal tt,
        match multer_run H options with
        | MulterError err =>
            {| fs := disk; useMemoryStorage := useMemory;
               trace := l ++ [Respond 400
                 (JObj [("error", JStr ("Multer error: " +:+ message err))])] |}
        | OtherError err =>
            {| fs := disk; useMemoryStorage := useMemory;
               trace := l ++ [Respond 500
                 (JObj [("error", JStr ("Unknown error: " +:+ message err))])] |}
        | Accepted None =>
            {| fs := disk; useMemoryStorage := useMemory;
               trace := l ++ [Respond 400 (JObj [("error", JStr "No file uploaded")])] |}
        | Accepted (Some part) =>
            let p := relayPath H (opt_storage options) part in
            let staged :=
              [FsWrite p;
               FilesUpload (Some p) (part_mimetype part) (part_originalname part)] in
            let failed e :=
              staged ++ [ConsoleError "Upload error:" e;
                         Respond 500 (failureBody e useMemory)] in
            let kept := <[p := part_content part]> disk in
            let done uploadedFile :=
              {| fs := delete p kept; useMemoryStorage := useMemory;
                 trace := l ++ staged ++ [FsUnlink p;
                                          Respond 200 (successBody uploadedFile)] |} in
            if useMemory then
              match writeFileSync_fault H p with
              | Some e =>
                  let answer := [ConsoleError "Upload error:" e;
                                 Respond 500 (failureBody e true)] in
                  match writeFileSync_partial H p with
                  | Some remains =>
                      {| fs := <[p := remains]> disk; useMemoryStorage := true;
                         trace := l ++ [FsWrite p] ++ answer |}
                  | None =>
                      {| fs := disk; useMemoryStorage := true;
                         trace := l ++ answer |}
                  end
              | None =>
                  match race (files_upload H), unlinkSync_fault H p with
                  | Normal uploadedFile, None => done uploadedFile
                  | Normal _, Some e | Throw e, _ =>
                      {| fs := kept; useMemoryStorage := true;
                         trace := l ++ failed e |}
                  end
              end
            else
              match race (files_upload H), unlinkSync_fault H p with
              | Normal uploadedFile, None => done uploadedFile
              | Normal _, Some e =>
                  {| fs := kept; useMemoryStorage := false;
                     trace := l ++ failed e
                              ++ [ConsoleError "Failed to clean up file:" e] |}
              | Throw e, None =>
                  {| fs := delete p kept; useMemoryStorage := false;
                     trace := l ++ failed e ++ [FsUnlink p] |}
              | Throw e, Some e' =>
                  {| fs := kept; useMemoryStorage := false;
                     trace := l ++ failed e
                              ++ [ConsoleError "Failed to clean up file:" e'] |}
              end
        end).
Proof.
  intros w options useMemory.
  destruct (multer_run H options) as [err|err|[part|]] eqn:Hmulter.
  1-2,4:
    destruct (adaptiveUpload_run H {| content_length := h; req_file := None |}
                (uploadHandler H) w) as (b & l & Hl & Hb & Hrun);
    exists l; split; [exact Hl|];
    unfold postUpload; rewrite Hrun; cbv zeta;
    subst useMemory options;
    rewrite (optionsFor_engine H h _ b Hb) in Hmulter |- *;
    rewrite Hmulter; destruct b; reflexivity.
  subst useMemory.
  destruct (opt_storage options) eqn:Hengine; cbn [isMemory relayPath].
  - destruct (disk_upload_run H h disk flag part Hengine Hmulter) as (l & Hl & Hrun).
    exists l. split; [exact Hl|]. fold w in Hrun. rewrite Hrun. cbv zeta.
    destruct (race (files_upload H)), (unlinkSync_fault H (diskPath H part));
      reflexivity.
  - destruct (writeFileSync_fault H (tempPath H (part_originalname part)))
      as [e|] eqn:Hwrite.
    + destruct (memory_write_fault_run H h disk flag part e Hengine Hmulter Hwrite)
        as (l & Hl & Hrun).
      exists l. split; [exact Hl|]. fold w in Hrun. rewrite Hrun. cbv zeta.
      destruct (writeFileSync_partial H (tempPath H (part_originalname part)));
        reflexivity.
    + destruct (memory_upload_run H h disk flag part Hengine Hmulter Hwrite)
        as (l & Hl & Hrun).
      exists l. split; [exact Hl|]. fold w in Hrun. rewrite Hrun. cbv zeta.
      destruct (race (files_upload H)),
        (unlinkSync_fault H (tempPath H (part_originalname part))); reflexivity.
Qed.

Ltac run_cases H h disk flag :=
  let l := fresh "l" in
  let Hl := fresh "Hl" in
  let Hrun := fresh "Hrun" in
  destruct (postUpload_run H h disk flag) as (l & Hl & Hrun);
  cbv zeta in Hrun; rewrite Hrun; clear Hrun;
  let Hr := fresh "Hr" in
  let Hc := fresh "Hc" in
  let Hw := fresh "Hw" in
  destruct (console_silent l Hl) as (Hr & Hc & Hw).

Ltac observe :=
  cbn [fst snd trace fs useMemoryStorage];
  rewrite ?responses_app, ?relayCalls_app, ?fileWrites_app;
  repeat match goal with
         | Hr : responses ?l = [] |- _ => rewrite Hr; clear Hr
         | Hc : relayCalls ?l = [] |- _ => rewrite Hc; clear Hc
         | Hw : fileWrites ?l = [] |- _ => rewrite Hw; clear Hw
         end;
  cbn [app].

(** With the settlement that [race] describes, the handler for settled
    races is the handler. *)
(** On the settlements that [race] describes, the handler and the route
    written with settlements are the handler and the route above. *)
Lemma uploadHandlerSettled_race (H : host) (req : request) (w : world) :
  uploadHandlerSettled H (settled (race (files_upload H))) req w
  = uploadHandler H req w.
Proof.
  unfold uploadHandlerSettled, tryBlock, catchBlock, uploadHandler, tryCatch,
    writeFileSync, unlinkSync, respond, mbind, M_bind, mret, M_ret,
    readUseMemoryStorage, emit, lift, throw, lookupFile, removeFile, putFile.
  destruct (req_file req) as [f|]; [|reflexivity].
  destruct (useMemoryStorage w) eqn:Hflag; cbn -[race].
  - destruct (buffer f) as [d|]; [|cbn; rewrite Hflag; reflexivity].
    destruct (writeFileSync_fault H _) as [e|].
    + destruct (writeFileSync_partial H _); cbn; rewrite Hflag; reflexivity.
    + cbn -[race]. destruct (race (files_upload H)) as [uploadedFile|e];
        cbn; [|rewrite Hflag; reflexivity].
      destruct (unlinkSync_fault H _); cbn; rewrite ?Hflag; try reflexivity.
      destruct (_ !! _); cbn; rewrite ?Hflag; reflexivity.
  - destruct (race (files_upload H)) as [uploadedFile|e]; cbn.
    + destruct (path f) as [p|]; cbn; rewrite ?Hflag; cbn; [|reflexivity].
      destruct (unlinkSync_fault H p); cbn; rewrite ?Hflag; cbn.
      * destruct (JS.truthy p); reflexivity.
      * destruct (_ !! _); cbn; rewrite ?Hflag; cbn; [reflexivity|].
        destruct (JS.truthy p); cbn; [|reflexivity].
        destruct (_ !! _); reflexivity.
    + rewrite Hflag. cbn. destruct (path f) as [p|]; [|reflexivity].
      destruct (JS.truthy p); cbn; [|reflexivity].
      destruct (unlinkSync_fault H p); cbn; [reflexivity|].
      destruct (_ !! _); reflexivity.
Qed.

(** [adaptiveUpload] uses its continuation only by running it. *)
Lemma adaptiveUpload_ext
    (H : host) (req : request) (next next' : request -> M unit) (w : world) :
  (forall r w', next r w' = next' r w') ->
  adaptiveUpload H req next w = adaptiveUpload H req next' w.
Proof.
  intros Hext. unfold adaptiveUpload.
  destruct (shouldUseMemoryStorage_uniform H (contentLength req))
    as (b & l & _ & Hselect).
  rewrite !bind_run, !Hselect.
  cbn [assignUseMemoryStorage readUseMemoryStorage fs useMemoryStorage trace].
  rewrite !bind_run.
  cbn [assignUseMemoryStorage readUseMemoryStorage fs useMemoryStorage trace].
  rewrite !bind_run.
  cbn [assignUseMemoryStorage readUseMemoryStorage fs useMemoryStorage trace].
  destruct (multer_run H (uploadOptions b)) as [err|err|[part|]];
    try reflexivity; [|apply Hext].
  rewrite !bind_run. destruct (handleFile H _ part _) as [[f|e] w1];
    [apply Hext|reflexivity].
Qed.

Lemma postUploadSettled_race (H : host) (h : option string) (w : world) :
  postUploadSettled H (settled (race (files_upload H))) h w = postUpload H h w.
Proof.
  unfold postUploadSettled, postUpload.
  apply adaptiveUpload_ext. apply uploadHandlerSettled_race.
Qed.

(** X3.  The route sends at most one response.  It completes without an
    uncaught exception and sends exactly one response, with status 200,
    400 or 500, whatever multer reports, whatever file system fault
    occurs and however the race settles, with one exception: when the
    relay has been called and rejects with a value that has no [message]
    (such as [undefined]), the catch block itself throws on line 165
    while building the body, no response is sent and the exception leaves
    the handler. *)
Theorem exactly_one_response
    (H : host) (s : settlement) (h : option string)
    (disk : gmap string string) (flag : bool) :
  let run := postUploadSettled H s h (initialWorld disk flag) in
  let tr := trace (snd run) in
  (s <> RejectedBare \/ relayCalls tr = [] ->
   fst run = Normal tt
   /\ exists status body,
        responses tr = [(status, body)]
        /\ (status = 200 \/ status = 400 \/ status = 500))
  /\ (s = RejectedBare -> relayCalls tr <> [] ->
      fst run =
        Throw (mkError "Cannot read properties of undefined (reading 'message')")
      /\ responses tr = []).
Proof.
  cbv zeta. unfold postUploadSettled.
  destruct (adaptiveUpload_run H {| content_length := h; req_file := None |}
              (uploadHandlerSettled H s) (initialWorld disk flag))
    as (b & l & Hl & _ & Hrun).
  rewrite Hrun. clear Hrun. cbv zeta.
  destruct (console_silent l Hl) as (Hr & Hc & _).
  unfold uploadHandlerSettled, tryBlock, catchBlock, handleFile, writeFileSync,
    unlinkSync, respond, tryCatch, mbind, M_bind, mret, M_ret,
    readUseMemoryStorage, emit, lift, throw, lookupFile, removeFile, putFile.
  assert (Hone : forall status body,
             (status = 200 \/ status = 400 \/ status = 500) ->
             exists status' body',
               [(status, body)] = [(status', body' : json)]
               /\ (status' = 200 \/ status' = 400 \/ status' = 500))
    by (intros status body Hstatus; exists status, body; auto).
  destruct (multer_run H (uploadOptions b)) as [err|err|[part|]];
    [| |destruct b|]; cbn -[String.append responses relayCalls].
  1, 2, 5:
    split;
    [intros _; split; [reflexivity|]; observe; cbn; apply Hone; auto
    |intros _ Hne; exfalso; apply Hne; observe; reflexivity].
  - destruct (writeFileSync_fault H _) as [e|];
      [destruct (writeFileSync_partial H _)|];
      cbn -[String.append responses relayCalls].
    1, 2:
      split;
      [intros _; split; [reflexivity|]; observe; cbn; apply Hone; auto
      |intros _ Hne; exfalso; apply Hne; observe; reflexivity].
    destruct s as [uploadedFile|e|];
      cbn -[String.append responses relayCalls].
    + destruct (unlinkSync_fault H _);
        [|destruct (_ !! _)]; cbn -[String.append responses relayCalls];
        (split;
         [intros _; split; [reflexivity|]; observe; cbn; apply Hone; auto
         |intros Hs; discriminate Hs]).
    + split;
        [intros _; split; [reflexivity|]; observe; cbn; apply Hone; auto
        |intros Hs; discriminate Hs].
    + split.
      * intros [Hs|Hs]; [contradiction|].
        revert Hs. observe. cbn. discriminate.
      * intros _ _. split; [reflexivity|]. observe. reflexivity.
  - destruct s as [uploadedFile|e|];
      cbn -[String.append responses relayCalls].
    + destruct (unlinkSync_fault H _);
        [|destruct (_ !! _)]; cbn -[String.append responses relayCalls];
        try destruct (JS.truthy _); cbn -[String.append responses relayCalls];
        try destruct (_ !! _); cbn -[String.append responses relayCalls];
        (split;
         [intros _; split; [reflexivity|]; observe; cbn; apply Hone; auto
         |intros Hs; discriminate Hs]).
    + destruct (JS.truthy _); cbn -[String.append responses relayCalls];
        [destruct (unlinkSync_fault H _); [|destruct (_ !! _)]|];
        cbn -[String.append responses relayCalls];
        (split;
         [intros _; split; [reflexivity|]; observe; cbn; apply Hone; auto
         |intros Hs; discriminate Hs]).
    + split.
      * intros [Hs|Hs]; [contradiction|].
        revert Hs. observe. cbn. discriminate.
      * intros _ _. split; [reflexivity|]. observe. reflexivity.
Qed.

Lemma exactly_one_response_witness :
  (let run :=
     postUploadSettled (Sample.idle (Resolves 1200 Sample.metadata) Sample.noFault)
       (Fulfilled Sample.metadata) (Some "5") Sample.start in
   fst run = Normal tt
   /\ exists status body,
        responses (trace (snd run)) = [(status, body)]
        /\ (status = 200 \/ status = 400 \/ status = 500))
  /\ (let run :=
        postUploadSettled (Sample.idle (Resolves 1200 Sample.metadata) Sample.noFault)
          RejectedBare (Some "5") Sample.start in
      fst run =
        Throw (mkError "Cannot read properties of undefined (reading 'message')")
      /\ responses (trace (snd run)) = []).
Proof.
  split.
  - refine (proj1 (exactly_one_response
                     (Sample.idle (Resolves 1200 Sample.metadata) Sample.noFault)
                     (Fulfilled Sample.metadata) (Some "5") ∅ true) _).
    left. discriminate.
  - refine (proj2 (exactly_one_response
                     (Sample.idle (Resolves 1200 Sample.metadata) Sample.noFault)
                     RejectedBare (Some "5") ∅ true) eq_refl _).
    vm_compute. discriminate.
Defined.

(** X4.  A request changes no file other than the one it hands to the
    relay: every other path of the file system holds after the request
    what it held before, on every path through the code. *)
Theorem other_files_untouched
    (H : host) (h : option string) (disk : gmap string string) (flag : bool)
    (q : string) :
  let w := initialWorld disk flag in
  (forall part, multer_run H (optionsFor H h w) = Accepted (Some part) ->
                q <> relayPath H (opt_storage (optionsFor H h w)) part) ->
  fs (snd (postUpload H h w)) !! q = disk !! q.
Proof.
  cbv zeta. intros Hother. run_cases H h disk flag.
  destruct (multer_run H _) as [err|err|[part|]]; try reflexivity.
  specialize (Hother part eq_refl).
  repeat case_match; cbn [snd fs];
    rewrite ?lookup_delete_ne, ?lookup_insert_ne by congruence; reflexivity.
Qed.

Lemma other_files_untouched_witness :
  fs (snd (postUpload Scenario.busyRefused (Some "1024")
             (initialWorld Scenario.occupied true)))
    !! "/srv/app/uploads/1699999999999-report.pdf" = Some "%PDF".
Proof.
  rewrite (other_files_untouched Scenario.busyRefused (Some "1024")
             Scenario.occupied true "/srv/app/uploads/1699999999999-report.pdf").
  - reflexivity.
  - intros part Hpart. vm_compute in Hpart. injection Hpart as <-.
    vm_compute. discriminate.
Defined.


Lemma race_resolved_inv (o : relayOutcome) (metadata : json) :
  race o = Normal metadata ->
  exists t, o = Resolves t metadata /\ (t <= UPLOAD_TIMEOUT)%N.
Proof.
  destruct o as [t m|t e|]; cbn [race]; try discriminate.
  - destruct (t <=? UPLOAD_TIMEOUT)%N eqn:Hwithin; [|discriminate].
    intros [= ->]. exists t. split; [reflexivity|]. apply N.leb_le. exact Hwithin.
  - destruct (t <=? UPLOAD_TIMEOUT)%N; discriminate.
Qed.

Lemma unlinkedBeforeResponse_success
    (p : string) (l : list event) (mimeType displayName : string)
    (status : Z) (body : json) :
  forallb isConsole l = true ->
  unlinkedBeforeResponse p
    (l ++ [FsWrite p; FilesUpload (Some p) mimeType displayName] ++
          [FsUnlink p; Respond status body]) = true.
Proof.
  intros Hl. rewrite (unlinkedBeforeResponse_console p l _ Hl).
  cbn. rewrite String.eqb_refl. reflexivity.
Qed.

(** X6.  Status 200 is sent only after the relay has resolved and won
    the race against the timer, and the relayed file has been removed: if
    the response is 200, multer accepted a file part, the race was
    fulfilled with the metadata the relay resolved with, the body is the
    success body built from that metadata, the file was unlinked before
    the response, and it is no longer on disk. *)
Theorem success_only_after_relay_and_cleanup
    (H : host) (h : option string) (disk : gmap string string) (flag : bool)
    (body : json) :
  let w := initialWorld disk flag in
  let engine := opt_storage (optionsFor H h w) in
  responses (trace (snd (postUpload H h w))) = [(200, body)] ->
  exists part t metadata,
    multer_run H (optionsFor H h w) = Accepted (Some part)
    /\ files_upload H = Resolves t metadata
    /\ race (files_upload H) = Normal metadata
    /\ body = successBody metadata
    /\ unlinkedBeforeResponse (relayPath H engine part)
         (trace (snd (postUpload H h w))) = true
    /\ fs (snd (postUpload H h w)) !! relayPath H engine part = None.
Proof.
  cbv zeta. run_cases H h disk flag.
  destruct (multer_run H _) as [err|err|[part|]];
    try (observe; discriminate).
  intros Hresponse. exists part.
  repeat case_match; try (revert Hresponse; observe; discriminate);
    match goal with
    | Hrace : race _ = Normal ?m |- _ =>
        apply race_resolved_inv in Hrace as (t & Hrelay & _);
        exists t, m
    end;
    revert Hresponse; observe; intros [= <-];
    (repeat split; [exact Hrelay| |apply lookup_delete_eq]);
    apply unlinkedBeforeResponse_success; exact Hl.
Qed.

Lemma success_only_after_relay_and_cleanup_witness :
  fs (snd (postUpload Sample.atThreshold (Some "1024") Sample.start))
    !! "/srv/app/uploads/temp-1700000000000-notes.txt" = None.
Proof.
  assert (Hresponse :
            responses (trace (snd (postUpload Sample.atThreshold (Some "1024")
                                     (initialWorld ∅ true))))
            = [(200, successBody Sample.metadata)])
    by (vm_compute; reflexivity).
  destruct (success_only_after_relay_and_cleanup Sample.atThreshold (Some "1024")
              ∅ true (successBody Sample.metadata) Hresponse)
    as (part & t & metadata & Hpart & _ & _ & _ & _ & Hgone).
  vm_compute in Hpart. injection Hpart as <-. exact Hgone.
Defined.

(** X7.  When multer reports an error that is not a [MulterError], the
    response is status 500 with [error] "Unknown error: " followed by the
    error's message, and the handler is not run: the relay is not
    called. *)
Theorem upload_error_response
    (H : host) (h : option string) (disk : gmap string string) (flag : bool)
    (err : jsError) :
  let w := initialWorld disk flag in
  multer_run H (optionsFor H h w) = OtherError err ->
  fst (postUpload H h w) = Normal tt
  /\ responses (trace (snd (postUpload H h w))) =
     [(500, JObj [("error", JStr ("Unknown error: " +:+ message err))])]
  /\ relayCalls (trace (snd (postUpload H h w))) = [].
Proof.
  cbv zeta. intros Hmulter. run_cases H h disk flag.
  rewrite Hmulter. observe. repeat split; reflexivity.
Qed.

Lemma upload_error_response_witness :
  responses (trace (snd (postUpload Scenario.truncated (Some "1024") Sample.start)))
  = [(500, JObj [("error", JStr "Unknown error: Unexpected end of form")])].
Proof.
  exact (proj1 (proj2 (upload_error_response Scenario.truncated (Some "1024") ∅ true
                         (mkError "Unexpected end of form") eq_refl))).
Defined.

(** X8.  In memory mode, when [fs.writeFileSync] of the temp file throws,
    the response is status 500 with the write error as [details] and
    [storageType] "memory", and the relay is not called.  What the failed
    call has left on disk stays there, since the catch block unlinks
    nothing in memory mode: nothing when the file could not be opened,
    the created (empty or partly written) temp file when the failure came
    while writing. *)
Theorem temp_write_failure
    (H : host) (h : option string) (disk : gmap string string) (flag : bool)
    (part : filePart) (e : jsError) :
  let w := initialWorld disk flag in
  let p := tempPath H (part_originalname part) in
  opt_storage (optionsFor H h w) = MemoryStorage ->
  multer_run H (optionsFor H h w) = Accepted (Some part) ->
  writeFileSync_fault H p = Some e ->
  responses (trace (snd (postUpload H h w))) = [(500, failureBody e true)]
  /\ relayCalls (trace (snd (postUpload H h w))) = []
  /\ unlinkedBeforeResponse p (trace (snd (postUpload H h w))) = false
  /\ fs (snd (postUpload H h w)) =
     match writeFileSync_partial H p with
     | Some remains => <[p := remains]> disk
     | None => disk
     end.
Proof.
  cbv zeta. intros Hengine Hmulter Hwrite.
  destruct (memory_write_fault_run H h disk flag part e Hengine Hmulter Hwrite)
    as (l & Hl & Hrun).
  rewrite Hrun. clear Hrun. cbv zeta.
  destruct (console_silent l Hl) as (Hr & Hc & _).
  destruct (writeFileSync_partial H _) as [remains|];
    cbn [snd trace fs];
    rewrite relayCalls_app, responses_app, Hr, Hc,
      (unlinkedBeforeResponse_console _ l _ Hl);
    repeat split; reflexivity.
Qed.

Lemma temp_write_failure_witness :
  responses (trace (snd (postUpload Scenario.fullDisk (Some "1024") Sample.start)))
  = [(500, failureBody (mkError "ENOSPC: no space left on device, write") true)]
  /\ fs (snd (postUpload Scenario.fullDisk (Some "1024") Sample.start))
       !! "/srv/app/uploads/temp-1700000000000-notes.txt" = Some ""
  /\ fs (snd (postUpload Scenario.readOnly (Some "1024") Sample.start)) = ∅.
Proof.
  destruct (temp_write_failure Scenario.fullDisk (Some "1024") ∅ true Sample.part
              (mkError "ENOSPC: no space left on device, write")
              eq_refl eq_refl eq_refl) as (Hresponse & _ & _ & Hdisk).
  destruct (temp_write_failure Scenario.readOnly (Some "1024") ∅ true Sample.part
              (mkError "EROFS: read-only file system, open")
              eq_refl eq_refl eq_refl) as (_ & _ & _ & Hdisk').
  split; [exact Hresponse|]. split; [|exact Hdisk'].
  unfold Sample.start. rewrite Hdisk. vm_compute. reflexivity.
Defined.

(** X9.  When the relay rejects before the timeout, the response is
    status 500 whose [details] is the provider's error message and whose
    [storageType] names the mode chosen for the request, in both modes
    and whether or not the later cleanup succeeds. *)
Theorem relay_error_response
    (H : host) (h : option string) (disk : gmap string string) (flag : bool)
    (part : filePart) (t : N) (e : jsError) :
  let w := initialWorld disk flag in
  let engine := opt_storage (optionsFor H h w) in
  multer_run H (optionsFor H h w) = Accepted (Some part) ->
  (engine = MemoryStorage ->
   writeFileSync_fault H (relayPath H engine part) = None) ->
  files_upload H = Rejects t e ->
  (t < UPLOAD_TIMEOUT)%N ->
  responses (trace (snd (postUpload H h w))) =
    [(500, failureBody e (isMemory engine))]
  /\ jsonField "details" (failureBody e (isMemory engine)) = Some (JStr (message e))
  /\ jsonField "storageType" (failureBody e (isMemory engine)) =
     Some (JStr (match engine with
                 | MemoryStorage => "memory"
                 | DiskStorage => "disk"
                 end)).
Proof.
  cbv zeta. intros Hmulter Hwrite Hrelay Hearly.
  split; [|split; [reflexivity|destruct (opt_storage _); reflexivity]].
  run_cases H h disk flag. rewrite Hmulter, Hrelay. cbn [race].
  assert (Hwithin : (t <=? UPLOAD_TIMEOUT)%N = true) by (apply N.leb_le; lia).
  rewrite Hwithin.
  destruct (opt_storage _) eqn:Hengine; cbn [isMemory relayPath] in *.
  - repeat case_match; observe; reflexivity.
  - rewrite (Hwrite eq_refl). repeat case_match; observe; reflexivity.
Qed.

Lemma relay_error_response_witness :
  responses (trace (snd (postUpload Scenario.busyRefused (Some "1024") Sample.start)))
  = [(500, failureBody (mkError "403 Forbidden") false)].
Proof.
  refine (proj1 (relay_error_response Scenario.busyRefused (Some "1024") ∅ true
                   Sample.part 40 (mkError "403 Forbidden")
                   eq_refl _ eq_refl eq_refl)).
  intros Hmemory. vm_compute in Hmemory. discriminate Hmemory.
Defined.

(** X10.  A successful upload leaves the file system exactly as it found
    it: when the relay resolves before the timeout and the deletion
    succeeds, in either mode, the response is 200 and, the relay path
    having been free before the request, the file system after the
    request equals the file system before it. *)
Theorem success_restores_file_system
    (H : host) (h : option string) (disk : gmap string string) (flag : bool)
    (part : filePart) (t : N) (metadata : json) :
  let w := initialWorld disk flag in
  let engine := opt_storage (optionsFor H h w) in
  let p := relayPath H engine part in
  multer_run H (optionsFor H h w) = Accepted (Some part) ->
  (engine = MemoryStorage -> writeFileSync_fault H p = None) ->
  files_upload H = Resolves t metadata ->
  (t < UPLOAD_TIMEOUT)%N ->
  unlinkSync_fault H p = None ->
  disk !! p = None ->
  responses (trace (snd (postUpload H h w))) = [(200, successBody metadata)]
  /\ fs (snd (postUpload H h w)) = disk.
Proof.
  cbv zeta. intros Hmulter Hwrite Hrelay Hearly Hunlink Hfree.
  run_cases H h disk flag. rewrite Hmulter, Hrelay, Hunlink. cbn [race].
  assert (Hwithin : (t <=? UPLOAD_TIMEOUT)%N = true) by (apply N.leb_le; lia).
  rewrite Hwithin.
  assert (Hsame : delete (relayPath H (opt_storage (optionsFor H h (initialWorld disk flag))) part)
                    (<[relayPath H (opt_storage (optionsFor H h (initialWorld disk flag))) part
                       := part_content part]> disk) = disk).
  { rewrite delete_insert_eq. apply delete_id. exact Hfree. }
  destruct (opt_storage _) eqn:Hengine; cbn [isMemory relayPath] in *.
  - observe. split; [reflexivity|exact Hsame].
  - rewrite (Hwrite eq_refl). observe. split; [reflexivity|exact Hsame].
Qed.

Lemma success_restores_file_system_witness :
  fs (snd (postUpload Scenario.busyServed (Some "1024")
             (initialWorld Scenario.occupied true))) = Scenario.occupied.
Proof.
  refine (proj2 (success_restores_file_system Scenario.busyServed (Some "1024")
                   Scenario.occupied true Sample.part 1200 Sample.metadata
                   eq_refl _ eq_refl eq_refl eq_refl _)).
  - intros Hmemory. vm_compute in Hmemory. discriminate Hmemory.
  - vm_compute. reflexivity.
Defined.

(** X11.  A request with no Content-Length header, or an empty one, is
    given the declared size 0, so the size test never selects disk: with
    the memory statistics read, storage is chosen by the usage ratio
    alone. *)
Theorem absent_content_length
    (H : host) (h : option string) (freeMem totalMem : JS.number) (w : world) :
  h = None \/ h = Some "" ->
  os_freemem H = Normal freeMem ->
  os_totalmem H = Normal totalMem ->
  let req := {| content_length := h; req_file := None |} in
  contentLength req = JS.ofZ 0
  /\ selectedStorage H (contentLength req) w =
     Normal (if JS.gt (memoryUsageRatio freeMem totalMem) MEMORY_THRESHOLD
             then DiskStorage else MemoryStorage).
Proof.
  intros Habsent Hfree Htotal req.
  assert (Hsize : contentLength req = JS.ofZ 0).
  { destruct Habsent as [-> | ->]; reflexivity. }
  split; [exact Hsize|]. rewrite Hsize.
  rewrite (selectedStorage_sampled H (JS.ofZ 0) freeMem totalMem w Hfree Htotal).
  assert (Hsmall : JS.gt (JS.ofZ 0) sizeCutoff = false) by (vm_compute; reflexivity).
  rewrite Hsmall. reflexivity.
Qed.

Lemma absent_content_length_witness :
  selectedStorage (Sample.busy NeverSettles Sample.noFault)
    (contentLength {| content_length := None; req_file := None |}) Sample.start
  = Normal DiskStorage.
Proof.
  destruct (absent_content_length (Sample.busy NeverSettles Sample.noFault) None
              (JS.ofZ (1 * Sample.GiB)) (JS.ofZ (10 * Sample.GiB)) Sample.start
              (or_introl eq_refl) eq_refl eq_refl) as [_ Hchoice].
  rewrite Hchoice. vm_compute. reflexivity.
Defined.

(** ** File names *)

Lemma allDigits_pretty_N_go (x : N) (s : string) :
  allDigits s = true -> allDigits (pretty_N_go x s) = true.
Proof.
  revert s. induction (N.lt_wf_0 x) as [x _ IH]. intros s Hs.
  destruct (decide (x = 0%N)) as [->|Hpos].
  - rewrite pretty_N_go_0. exact Hs.
  - rewrite pretty_N_go_step by lia. apply IH.
    + apply N.div_lt; lia.
    + cbn [allDigits]. rewrite Hs, andb_true_r.
      unfold pretty_N_char. repeat case_match; reflexivity.
Qed.

Lemma allDigits_pretty (n : N) : allDigits (pretty n) = true.
Proof.
  unfold pretty, pretty_N. case_decide; [reflexivity|].
  apply allDigits_pretty_N_go. reflexivity.
Qed.

Lemma pretty_N_go_nonempty (x : N) (s : string) :
  s <> "" -> pretty_N_go x s <> "".
Proof.
  revert s. induction (N.lt_wf_0 x) as [x _ IH]. intros s Hs.
  destruct (decide (x = 0%N)) as [->|Hpos].
  - rewrite pretty_N_go_0. exact Hs.
  - rewrite pretty_N_go_step by lia. apply IH; [apply N.div_lt; lia|discriminate].
Qed.

Lemma pretty_nonempty (n : N) : pretty n <> "".
Proof.
  unfold pretty, pretty_N. case_decide; [discriminate|].
  rewrite pretty_N_go_step by lia. apply pretty_N_go_nonempty. discriminate.
Qed.

(** A string of digits followed by a dash determines both the digits and
    what follows the dash. *)
Lemma digits_dash_inj (a b x y : string) :
  allDigits a = true -> allDigits b = true ->
  a +:+ "-" +:+ x = b +:+ "-" +:+ y -> a = b /\ x = y.
Proof.
  revert b. induction a as [|c a IH]; intros [|d b] Ha Hb Heq; cbn in *.
  - injection Heq as Hxy. split; [reflexivity|exact Hxy].
  - injection Heq as Hd _. subst d. cbn in Hb. discriminate Hb.
  - injection Heq as Hc _. subst c. cbn in Ha. discriminate Ha.
  - injection Heq as Hcd Heq. subst d.
    apply andb_prop in Ha as [_ Ha]. apply andb_prop in Hb as [_ Hb].
    destruct (IH b Ha Hb Heq) as [Hab Hxy]. subst b. split; [reflexivity|exact Hxy].
Qed.

Lemma tempPath_inj (H1 H2 : host) (n1 n2 : string) :
  dirname H1 = dirname H2 ->
  tempPath H1 n1 = tempPath H2 n2 ->
  Date_now H1 = Date_now H2 /\ n1 = n2.
Proof.
  unfold tempPath, uploadsDir, path_join. intros -> Heq.
  apply (inj (String.append _)) in Heq. cbn in Heq.
  injection Heq as Heq.
  apply digits_dash_inj in Heq as [Hnow ->]; try apply allDigits_pretty.
  split; [|reflexivity]. apply (inj pretty). exact Hnow.
Qed.

Lemma diskPath_inj (H1 H2 : host) (f1 f2 : filePart) :
  dirname H1 = dirname H2 ->
  diskPath H1 f1 = diskPath H2 f2 ->
  Date_now H1 = Date_now H2 /\ part_originalname f1 = part_originalname f2.
Proof.
  unfold diskPath, storage_filename, uploadsDir, path_join. intros -> Heq.
  apply (inj (String.append _)) in Heq. cbn in Heq.
  injection Heq as Heq.
  apply digits_dash_inj in Heq as [Hnow Hname]; try apply allDigits_pretty.
  split; [|exact Hname]. apply (inj pretty). exact Hnow.
Qed.

Lemma tempPath_diskPath (H1 H2 : host) (n : string) (f : filePart) :
  dirname H1 = dirname H2 -> tempPath H1 n <> diskPath H2 f.
Proof.
  unfold tempPath, diskPath, storage_filename, uploadsDir, path_join.
  intros -> Heq.
  apply (inj (String.append _)) in Heq. cbn in Heq.
  injection Heq as Heq.
  pose proof (allDigits_pretty (Date_now H2)) as Hdigits.
  pose proof (pretty_nonempty (Date_now H2)) as Hnonempty.
  destruct (pretty (Date_now H2)) as [|c s]; [congruence|].
  cbn in Heq. injection Heq as Hc _. subst c. cbn in Hdigits. discriminate Hdigits.
Qed.

(** X12.  Within one process, the files of two requests can only share a
    path when both requests are in the same storage mode, were given the
    same [Date.now()] and carry the same original file name: a different
    mode, millisecond or name gives a different path.  In particular a
    memory-mode temp file never takes the path of a disk-mode upload. *)
Theorem relay_paths_distinct
    (H1 H2 : host) (engine1 engine2 : storageEngine) (f1 f2 : filePart) :
  dirname H1 = dirname H2 ->
  engine1 <> engine2 \/ Date_now H1 <> Date_now H2
  \/ part_originalname f1 <> part_originalname f2 ->
  relayPath H1 engine1 f1 <> relayPath H2 engine2 f2.
Proof.
  intros Hdir Hdiffer Heq.
  destruct engine1, engine2; cbn [relayPath] in Heq.
  - apply (diskPath_inj H1 H2 f1 f2 Hdir) in Heq as [Hnow Hname].
    destruct Hdiffer as [Hengine|[Hd|Hd]]; congruence.
  - symmetry in Heq. symmetry in Hdir.
    exact (tempPath_diskPath H2 H1 _ f1 Hdir Heq).
  - exact (tempPath_diskPath H1 H2 _ f2 Hdir Heq).
  - apply (tempPath_inj H1 H2 _ _ Hdir) in Heq as [Hnow Hname].
    destruct Hdiffer as [Hengine|[Hd|Hd]]; congruence.
Qed.

Lemma relay_paths_distinct_witness :
  relayPath Sample.atThreshold MemoryStorage Sample.part
  <> relayPath Scenario.later MemoryStorage Sample.part.
Proof.
  apply relay_paths_distinct; [reflexivity|].
  right. left. cbn. discriminate.
Defined.

(** ** Requests that overlap *)

Lemma adaptiveUploadBegin_run (H : host) (req : request) :
  exists (b : bool) (l : list event),
    forallb isConsole l = true
    /\ (forall w, shouldUseMemoryStorage H (contentLength req) w =
          (Normal b,
           {| fs := fs w; useMemoryStorage := useMemoryStorage w;
              trace := trace w ++ l |}))
    /\ forall w, adaptiveUploadBegin H req w =
         (Normal (uploadOptions b),
          {| fs := fs w; useMemoryStorage := b; trace := trace w ++ l |}).
Proof.
  destruct (shouldUseMemoryStorage_uniform H (contentLength req)) as (b & l & Hl & Hrun).
  exists b, l. split; [exact Hl|]. split; [exact Hrun|].
  intros w. unfold adaptiveUploadBegin. rewrite bind_run, Hrun. reflexivity.
Qed.

Lemma uploadHandlerAsync_alone (H : host) (req : request) (w : world) :
  uploadHandlerAsync H (fun w => w) req w = uploadHandler H req w.
Proof. reflexivity. Qed.

(** With nothing happening at the suspension points, the route with
    suspension points is the route. *)
Lemma postUploadAsync_alone (H : host) (h : option string) (w : world) :
  postUploadAsync H (fun w => w) (fun w => w) h w = postUpload H h w.
Proof.
  unfold postUploadAsync, adaptiveUploadAsync, postUpload, adaptiveUpload.
  destruct (adaptiveUploadBegin_run H {| content_length := h; req_file := None |})
    as (b & l & _ & Hselect & Hbegin).
  rewrite !bind_run, Hbegin, Hselect.
  cbn [suspended assignUseMemoryStorage readUseMemoryStorage fs useMemoryStorage trace].
  rewrite !bind_run.
  cbn [suspended assignUseMemoryStorage readUseMemoryStorage fs useMemoryStorage trace].
  rewrite !bind_run.
  cbn [suspended assignUseMemoryStorage readUseMemoryStorage fs useMemoryStorage trace].
  destruct (multer_run H (uploadOptions b)) as [err|err|[part|]]; reflexivity.
Qed.

(** What the arrival of another request does: it leaves its own decision
    in the shared flag and writes to the console. *)
Lemma arrival_run (H' : host) (h' : option string) :
  exists (b' : bool) (l' : list event),
    forallb isConsole l' = true
    /\ (forall w, optionsFor H' h' w = uploadOptions b')
    /\ forall w, arrival H' h' w =
         {| fs := fs w; useMemoryStorage := b'; trace := trace w ++ l' |}.
Proof.
  destruct (adaptiveUploadBegin_run H' {| content_length := h'; req_file := None |})
    as (b' & l' & Hl' & Hselect & Hbegin).
  exists b', l'. split; [exact Hl'|]. split.
  - intros w. unfold optionsFor. rewrite Hselect. reflexivity.
  - intros w. unfold arrival. rewrite Hbegin. reflexivity.
Qed.

(** X13.  The storage mode is one variable of the process.  When a
    request has been buffered in memory and, while multer is still
    reading its body, another request arrives for which disk storage is
    selected, the first request's handler takes the disk branch: it
    writes no temp file, calls the relay with an undefined file, and
    answers 500 with [storageType] "disk", never 200, however the relay
    settles. *)
Theorem overlapping_request_flips_memory_to_disk
    (H H' : host) (h h' : option string) (disk : gmap string string) (flag : bool)
    (part : filePart) :
  let w := initialWorld disk flag in
  opt_storage (optionsFor H h w) = MemoryStorage ->
  multer_run H (optionsFor H h w) = Accepted (Some part) ->
  opt_storage (optionsFor H' h' w) = DiskStorage ->
  let run := postUploadAsync H (arrival H' h') (fun w => w) h w in
  fst run = Normal tt
  /\ fileWrites (trace (snd run)) = []
  /\ relayCalls (trace (snd run)) = [None]
  /\ (exists e, responses (trace (snd run)) = [(500, failureBody e false)])
  /\ fs (snd run) = disk.
Proof.
  cbv zeta. intros Hengine Hmulter Hother.
  destruct (adaptiveUploadBegin_run H {| content_length := h; req_file := None |})
    as (b & l & Hl & Hselect & Hbegin).
  destruct (arrival_run H' h') as (b' & l' & Hl' & Hoptions' & Harrival).
  rewrite Hoptions' in Hother. destruct b'; [discriminate Hother|].
  unfold optionsFor in Hengine, Hmulter. rewrite Hselect in Hengine, Hmulter.
  cbn [fst] in Hengine, Hmulter. destruct b; [|discriminate Hengine].
  unfold postUploadAsync, adaptiveUploadAsync.
  rewrite bind_run, Hbegin, Hmulter.
  unfold uploadHandlerAsync, handleFile, suspended, tryCatch, mbind, M_bind,
    mret, M_ret.
  cbn -[race arrival]. rewrite !Harrival. cbn -[race].
  destruct (console_silent l Hl) as (Hr & Hc & Hw).
  destruct (console_silent l' Hl') as (Hr' & Hc' & Hw').
  destruct (race (files_upload H)) as [uploadedFile|e]; cbn;
    rewrite ?fileWrites_app, ?relayCalls_app, ?responses_app,
      ?Hr, ?Hc, ?Hw, ?Hr', ?Hc', ?Hw';
    (repeat split; try reflexivity); eexists; reflexivity.
Qed.

Lemma overlapping_request_flips_memory_to_disk_witness :
  relayCalls (trace (snd (postUploadAsync Sample.atThreshold
                            (arrival Scenario.busyServed (Some "1024"))
                            (fun w => w) (Some "1024") Sample.start)))
  = [None]
  /\ exists e,
       responses (trace (snd (postUploadAsync Sample.atThreshold
                                (arrival Scenario.busyServed (Some "1024"))
                                (fun w => w) (Some "1024") Sample.start)))
       = [(500, failureBody e false)].
Proof.
  destruct (overlapping_request_flips_memory_to_disk Sample.atThreshold
              Scenario.busyServed (Some "1024") (Some "1024") ∅ true Sample.part
              eq_refl eq_refl eq_refl) as (_ & _ & Hcalls & Hresponse & _).
  split; [exact Hcalls | exact Hresponse].
Defined.

(** X14.  In the other direction the first request's file is orphaned:
    when a request has been stored on disk and, while multer is still
    reading its body, another request arrives for which memory storage
    is selected, the handler takes the memory branch, fails on the
    missing buffer before any relay call, answers 500 with [storageType]
    "memory", and skips the cleanup, so multer's file stays on disk. *)
Theorem overlapping_request_flips_disk_to_memory
    (H H' : host) (h h' : option string) (disk : gmap string string) (flag : bool)
    (part : filePart) :
  let w := initialWorld disk flag in
  opt_storage (optionsFor H h w) = DiskStorage ->
  multer_run H (optionsFor H h w) = Accepted (Some part) ->
  opt_storage (optionsFor H' h' w) = MemoryStorage ->
  let run := postUploadAsync H (arrival H' h') (fun w => w) h w in
  fst run = Normal tt
  /\ relayCalls (trace (snd run)) = []
  /\ (exists e, responses (trace (snd run)) = [(500, failureBody e true)])
  /\ fs (snd run) !! diskPath H part = Some (part_content part).
Proof.
  cbv zeta. intros Hengine Hmulter Hother.
  destruct (adaptiveUploadBegin_run H {| content_length := h; req_file := None |})
    as (b & l & Hl & Hselect & Hbegin).
  destruct (arrival_run H' h') as (b' & l' & Hl' & Hoptions' & Harrival).
  rewrite Hoptions' in Hother. destruct b'; [|discriminate Hother].
  unfold optionsFor in Hengine, Hmulter. rewrite Hselect in Hengine, Hmulter.
  cbn [fst] in Hengine, Hmulter. destruct b; [discriminate Hengine|].
  unfold postUploadAsync, adaptiveUploadAsync.
  rewrite bind_run, Hbegin, Hmulter.
  unfold uploadHandlerAsync, handleFile, suspended, tryCatch, mbind, M_bind,
    mret, M_ret, putFile.
  cbn -[race arrival]. rewrite !Harrival. cbn -[race].
  destruct (console_silent l Hl) as (Hr & Hc & Hw).
  destruct (console_silent l' Hl') as (Hr' & Hc' & Hw').
  rewrite ?fileWrites_app, ?relayCalls_app, ?responses_app,
    ?Hr, ?Hc, ?Hw, ?Hr', ?Hc', ?Hw'.
  repeat split; try reflexivity.
  - eexists. reflexivity.
  - apply lookup_insert_eq.
Qed.

Lemma overlapping_request_flips_disk_to_memory_witness :
  fs (snd (postUploadAsync Scenario.busyServed
             (arrival Sample.atThreshold (Some "1024"))
             (fun w => w) (Some "1024") Sample.start))
    !! "/srv/app/uploads/1700000000000-notes.txt" = Some "hello".
Proof.
  destruct (overlapping_request_flips_disk_to_memory Scenario.busyServed
              Sample.atThreshold (Some "1024") (Some "1024") ∅ true Sample.part
              eq_refl eq_refl eq_refl) as (_ & _ & _ & Hleft).
  exact Hleft.
Defined.

(** X15.  The flag is read again after the await.  When a request stored
    on disk is waiting for the relay and another request arrives for
    which memory storage is selected, a failing relay is reported with
    [storageType] "memory" and the cleanup is skipped: multer's file
    stays on disk. *)
Theorem arrival_during_relay_orphans_disk_file
    (H H' : host) (h h' : option string) (disk : gmap string string) (flag : bool)
    (part : filePart) (e : jsError) :
  let w := initialWorld disk flag in
  opt_storage (optionsFor H h w) = DiskStorage ->
  multer_run H (optionsFor H h w) = Accepted (Some part) ->
  race (files_upload H) = Throw e ->
  opt_storage (optionsFor H' h' w) = MemoryStorage ->
  let run := postUploadAsync H (fun w => w) (arrival H' h') h w in
  fst run = Normal tt
  /\ relayCalls (trace (snd run)) = [Some (diskPath H part)]
  /\ responses (trace (snd run)) = [(500, failureBody e true)]
  /\ fs (snd run) !! diskPath H part = Some (part_content part).
Proof.
  cbv zeta. intros Hengine Hmulter Hrace Hother.
  destruct (adaptiveUploadBegin_run H {| content_length := h; req_file := None |})
    as (b & l & Hl & Hselect & Hbegin).
  destruct (arrival_run H' h') as (b' & l' & Hl' & Hoptions' & Harrival).
  rewrite Hoptions' in Hother. destruct b'; [|discriminate Hother].
  unfold optionsFor in Hengine, Hmulter. rewrite Hselect in Hengine, Hmulter.
  cbn [fst] in Hengine, Hmulter. destruct b; [discriminate Hengine|].
  unfold postUploadAsync, adaptiveUploadAsync.
  rewrite bind_run, Hbegin, Hmulter.
  unfold uploadHandlerAsync, handleFile, suspended, tryCatch, mbind, M_bind,
    mret, M_ret, putFile.
  cbn -[race arrival]. rewrite !Harrival, Hrace. cbn.
  destruct (console_silent l Hl) as (Hr & Hc & Hw).
  destruct (console_silent l' Hl') as (Hr' & Hc' & Hw').
  rewrite ?fileWrites_app, ?relayCalls_app, ?responses_app,
    ?Hr, ?Hc, ?Hw, ?Hr', ?Hc', ?Hw'.
  repeat split; try reflexivity.
  apply lookup_insert_eq.
Qed.

Lemma arrival_during_relay_orphans_disk_file_witness :
  responses (trace (snd (postUploadAsync Scenario.busyRefused (fun w => w)
                           (arrival Sample.atThreshold (Some "1024"))
                           (Some "1024") Sample.start)))
  = [(500, failureBody (mkError "403 Forbidden") true)]
  /\ fs (snd (postUploadAsync Scenario.busyRefused (fun w => w)
                (arrival Sample.atThreshold (Some "1024"))
                (Some "1024") Sample.start))
       !! "/srv/app/uploads/1700000000000-notes.txt" = Some "hello".
Proof.
  destruct (arrival_during_relay_orphans_disk_file Scenario.busyRefused
              Sample.atThreshold (Some "1024") (Some "1024") ∅ true Sample.part
              (mkError "403 Forbidden") eq_refl eq_refl eq_refl eq_refl)
    as (_ & _ & Hresponse & Hleft).
  split; [exact Hresponse | exact Hleft].
Defined.

(** ** Decimal Content-Length headers *)

Lemma digitValue_pretty_N_char (m : N) :
  (m < 10)%N -> JS.digitValue (pretty_N_char m) = Some (Z.of_N m).
Proof.
  intros Hm.
  assert (Hcases : (m = 0 \/ m = 1 \/ m = 2 \/ m = 3 \/ m = 4 \/ m = 5
                    \/ m = 6 \/ m = 7 \/ m = 8 \/ m = 9)%N) by lia.
  repeat (destruct Hcases as [-> | Hcases]; [reflexivity|]).
  subst m. reflexivity.
Qed.

(** Reading the digits that [pretty] has put in front of [s]. *)
Lemma parseDigits_pretty_N_go (x : N) :
  (0 < x)%N ->
  exists k : Z, forall (s : string) (acc : option Z),
    JS.parseDigits 10 (pretty_N_go x s) acc
    = JS.parseDigits 10 s (Some (default 0 acc * k + Z.of_N x)).
Proof.
  induction (N.lt_wf_0 x) as [x _ IH]. intros Hpos.
  assert (Hdigit : (x `mod` 10 < 10)%N) by (apply N.mod_lt; lia).
  assert (Hsplit : Z.of_N x = 10 * Z.of_N (x `div` 10) + Z.of_N (x `mod` 10)).
  { transitivity (Z.of_N (10 * (x `div` 10) + x `mod` 10)).
    - f_equal. apply N.div_mod. lia.
    - rewrite N2Z.inj_add, N2Z.inj_mul. reflexivity. }
  destruct (decide (x `div` 10 = 0)%N) as [Hsmall|Hlarge].
  - exists 10. intros s acc.
    rewrite pretty_N_go_step by exact Hpos. rewrite Hsmall, pretty_N_go_0.
    cbn [JS.parseDigits]. rewrite (digitValue_pretty_N_char _ Hdigit).
    assert (Hlt : (Z.of_N (x `mod` 10) <? 10) = true) by (apply Z.ltb_lt; lia).
    rewrite Hlt. f_equal. f_equal. rewrite Hsplit, Hsmall. lia.
  - destruct (IH (x `div` 10)%N) as (k & Hk); [apply N.div_lt; lia|lia|].
    exists (10 * k). intros s acc.
    rewrite pretty_N_go_step by exact Hpos. rewrite Hk.
    cbn [JS.parseDigits]. rewrite (digitValue_pretty_N_char _ Hdigit).
    assert (Hlt : (Z.of_N (x `mod` 10) <? 10) = true) by (apply Z.ltb_lt; lia).
    rewrite Hlt. f_equal. f_equal. cbn [from_option]. unfold id.
    rewrite Hsplit. ring.
Qed.

Lemma parseDigits_pretty (n : N) :
  JS.parseDigits 10 (pretty n) None = Some (Z.of_N n).
Proof.
  unfold pretty, pretty_N. case_decide as Hzero; [subst n; reflexivity|].
  destruct (parseDigits_pretty_N_go n) as (k & Hk); [lia|].
  rewrite Hk. cbn. f_equal.
Qed.

Lemma digit_not_space (c : ascii) : isDigit c = true -> JS.isWhiteSpace c = false.
Proof.
  unfold isDigit, JS.isWhiteSpace. cbv zeta.
  intros [Hlow Hhigh]%andb_prop.
  apply N.leb_le in Hlow, Hhigh.
  repeat (apply orb_false_intro || apply andb_false_intro2);
    first [apply N.leb_gt | apply N.eqb_neq]; lia.
Qed.

Lemma digit_not_sign (c : ascii) (s : string) :
  isDigit c = true -> JS.stripSign (String c s) = (false, String c s).
Proof.
  intros Hc. destruct c as [[] [] [] [] [] [] [] []];
    try discriminate Hc; reflexivity.
Qed.

Lemma digits_no_hex_prefix (s : string) :
  allDigits s = true -> JS.stripHexPrefix s = (10, s).
Proof.
  destruct s as [|c [|d s]]; intros Hs; try reflexivity.
  - destruct c as [[] [] [] [] [] [] [] []]; reflexivity.
  - cbn [allDigits] in Hs.
    apply andb_prop in Hs as [Hc [Hd _]%andb_prop].
    destruct c as [[] [] [] [] [] [] [] []]; try discriminate Hc; try reflexivity.
    destruct d as [[] [] [] [] [] [] [] []]; try discriminate Hd; reflexivity.
Qed.

Lemma parseInt_pretty (n : N) : JS.parseInt (pretty n) = JS.ofZ (Z.of_N n).
Proof.
  pose proof (allDigits_pretty n) as Hdigits.
  pose proof (pretty_nonempty n) as Hnonempty.
  pose proof (parseDigits_pretty n) as Hparse.
  unfold JS.parseInt.
  destruct (pretty n) as [|c s] eqn:Htext; [congruence|].
  assert (Hc : isDigit c = true).
  { cbn [allDigits] in Hdigits. apply andb_prop in Hdigits as [Hc _]. exact Hc. }
  cbn [JS.trimStart]. rewrite (digit_not_space c Hc).
  rewrite (digit_not_sign c s Hc), (digits_no_hex_prefix _ Hdigits), Hparse.
  destruct n as [|p]; reflexivity.
Qed.

(** ** Integers as numbers *)

Lemma digits2_pos_size (p : positive) : digits2_pos p = Pos.size p.
Proof. induction p as [p IH|p IH|]; cbn; rewrite ?IH; reflexivity. Qed.

Lemma digits2_pos_iter_xO (p d : positive) :
  digits2_pos (Pos.iter xO p d) = (digits2_pos p + d)%positive.
Proof.
  induction d as [|d IH] using Pos.peano_ind.
  - cbn. lia.
  - rewrite Pos.iter_succ. cbn [digits2_pos]. rewrite IH. lia.
Qed.

Lemma iter_xO_value (p d : positive) :
  Zpos (Pos.iter xO p d) = Zpos p * 2 ^ Zpos d.
Proof.
  induction d as [|d IH] using Pos.peano_ind.
  - cbn. lia.
  - rewrite Pos.iter_succ, Pos2Z.inj_xO, IH, Pos2Z.inj_succ, Z.pow_succ_r by lia.
    ring.
Qed.

(** The bounds that the number of binary digits puts on a positive. *)
Lemma size_bounds (p : positive) :
  2 ^ (Zpos (Pos.size p) - 1) <= Zpos p < 2 ^ Zpos (Pos.size p).
Proof.
  pose proof (Pos.size_gt p) as Hgt. pose proof (Pos.size_le p) as Hle.
  apply Pos2Z.pos_lt_pos in Hgt. apply Pos2Z.pos_le_pos in Hle.
  rewrite Pos2Z.inj_pow in Hgt, Hle.
  change (Zpos p~0) with (2 * Zpos p) in Hle.
  split; [|exact Hgt].
  assert (Hpow : 2 ^ Zpos (Pos.size p) = 2 * 2 ^ (Zpos (Pos.size p) - 1)).
  { rewrite <- Z.pow_succ_r by lia. f_equal. lia. }
  lia.
Qed.

(** An integer of at most 53 binary digits is a number exactly: its
    mantissa is the integer shifted to 53 digits. *)
Lemma ofZ_exact (p : positive) :
  (Pos.size p <= 53)%positive ->
  exists m : positive,
    JS.ofZ (Zpos p) = S754_finite false m (Zpos (Pos.size p) - 53)
    /\ Zpos m = Zpos p * 2 ^ (53 - Zpos (Pos.size p)).
Proof.
  intros Hsize.
  assert (Halign : exists m,
             shl_align p 0 (Zpos (Pos.size p) - 53) = (m, Zpos (Pos.size p) - 53)
             /\ digits2_pos m = 53%positive
             /\ Zpos m = Zpos p * 2 ^ (53 - Zpos (Pos.size p))).
  { unfold shl_align. rewrite Z.sub_0_r.
    destruct (Zpos (Pos.size p) - 53) as [|d|d] eqn:Hd; [|lia|].
    - exists p. rewrite digits2_pos_size.
      replace (53 - Zpos (Pos.size p)) with 0 by lia.
      repeat split; lia.
    - exists (Pos.iter xO p d).
      rewrite digits2_pos_iter_xO, digits2_pos_size, iter_xO_value.
      replace (53 - Zpos (Pos.size p)) with (Zpos d) by lia.
      repeat split; lia. }
  destruct Halign as (m & Halign & Hdigits & Hvalue).
  exists m. split; [|exact Hvalue].
  unfold JS.ofZ, binary_normalize, binary_round.
  rewrite digits2_pos_size.
  assert (Hfexp : fexp JS.prec JS.emax (Zpos (Pos.size p) + 0)
                  = Zpos (Pos.size p) - 53).
  { unfold fexp, emin, JS.prec, JS.emax. lia. }
  rewrite Hfexp, Halign.
  unfold binary_round_aux, shr_fexp. cbn [Zdigits2]. rewrite Hdigits.
  assert (Hstay : fexp JS.prec JS.emax (53 + (Zpos (Pos.size p) - 53))
                  - (Zpos (Pos.size p) - 53) = 0).
  { unfold fexp, emin, JS.prec, JS.emax. lia. }
  rewrite Hstay. cbn [shr shr_record_of_loc shr_m loc_of_shr_record
                      round_nearest_even Zdigits2].
  rewrite Hdigits, Hstay. cbn [shr shr_m].
  assert (Hfits : (Zpos (Pos.size p) - 53 <=? JS.emax - JS.prec) = true).
  { apply Z.leb_le. unfold JS.emax, JS.prec. lia. }
  rewrite Hfits. reflexivity.
Qed.

(** On integers of at most 53 binary digits, [>] on numbers is [>] on
    integers. *)
Lemma ofZ_gt (p q : positive) :
  (Pos.size p <= 53)%positive -> (Pos.size q <= 53)%positive ->
  JS.gt (JS.ofZ (Zpos p)) (JS.ofZ (Zpos q)) = (Zpos q <? Zpos p).
Proof.
  intros Hp Hq.
  destruct (ofZ_exact p Hp) as (mp & -> & Hmp).
  destruct (ofZ_exact q Hq) as (mq & -> & Hmq).
  pose proof (size_bounds p) as Hbp. pose proof (size_bounds q) as Hbq.
  unfold JS.gt, SFltb, SFcompare.
  destruct (Z.compare_spec (Zpos (Pos.size q) - 53) (Zpos (Pos.size p) - 53))
    as [Hsame|Hless|Hmore].
  - assert (Hsize : Zpos (Pos.size q) = Zpos (Pos.size p)) by lia.
    rewrite Hsize in Hmq.
    assert (Hscale : 0 < 2 ^ (53 - Zpos (Pos.size p))) by (apply Z.pow_pos_nonneg; lia).
    change (Pos.compare_cont Eq mq mp) with (Pos.compare mq mp).
    destruct (Pos.compare_spec mq mp) as [Heq|Hlt|Hgt];
      destruct (Z.ltb_spec (Zpos q) (Zpos p)) as [Hqp|Hqp]; try reflexivity;
      exfalso.
    + subst mq. nia.
    + apply Pos2Z.pos_lt_pos in Hlt. nia.
    + apply Pos2Z.pos_lt_pos in Hgt. nia.
  - assert (Hpow : 2 ^ Zpos (Pos.size q) <= 2 ^ (Zpos (Pos.size p) - 1))
      by (apply Z.pow_le_mono_r; lia).
    symmetry. apply Z.ltb_lt. lia.
  - assert (Hpow : 2 ^ Zpos (Pos.size p) <= 2 ^ (Zpos (Pos.size q) - 1))
      by (apply Z.pow_le_mono_r; lia).
    symmetry. apply Z.ltb_ge. lia.
Qed.

Lemma size_le_53 (p : positive) : Zpos p < 2 ^ 53 -> (Pos.size p <= 53)%positive.
Proof.
  intros Hp. pose proof (size_bounds p) as [Hlow _].
  assert (Hlt : 2 ^ (Zpos (Pos.size p) - 1) < 2 ^ 53) by lia.
  apply Z.pow_lt_mono_r_iff in Hlt; lia.
Qed.

(** The size test of line 64 on integers below [2^53]. *)
Lemma ofZ_gt_sizeCutoff (n : N) :
  (n < 2 ^ 53)%N ->
  JS.gt (JS.ofZ (Z.of_N n)) sizeCutoff = (15728640 <? n)%N.
Proof.
  intros Hn. rewrite sizeCutoff_15MiB.
  destruct n as [|p]; [reflexivity|].
  cbn [Z.of_N]. rewrite ofZ_gt.
  - destruct (Z.ltb_spec 15728640 (Zpos p)), (N.ltb_spec 15728640 (Npos p));
      try reflexivity; lia.
  - apply size_le_53. lia.
  - vm_compute. discriminate.
Qed.

(** X16.  A Content-Length header that consists of the decimal digits of
    an integer [n] below [2^53] is read as the number [n], and the size
    test is then the integer comparison with 15 MiB: with the memory
    statistics read, disk storage is chosen exactly when [n] is greater
    than 15,728,640 or the usage ratio is greater than 0.8. *)
Theorem decimal_content_length
    (H : host) (n : N) (freeMem totalMem : JS.number) (w : world) :
  (n < 2 ^ 53)%N ->
  os_freemem H = Normal freeMem ->
  os_totalmem H = Normal totalMem ->
  let req := {| content_length := Some (pretty n); req_file := None |} in
  contentLength req = JS.ofZ (Z.of_N n)
  /\ selectedStorage H (contentLength req) w =
     Normal (if (15728640 <? n)%N
                || JS.gt (memoryUsageRatio freeMem totalMem) MEMORY_THRESHOLD
             then DiskStorage else MemoryStorage).
Proof.
  intros Hn Hfree Htotal req.
  assert (Hsize : contentLength req = JS.ofZ (Z.of_N n)).
  { unfold contentLength, req. cbn [content_length].
    pose proof (pretty_nonempty n) as Hnonempty.
    destruct (pretty n) as [|c s] eqn:Htext; [congruence|].
    cbn [JS.truthy]. rewrite <- Htext. apply parseInt_pretty. }
  split; [exact Hsize|]. rewrite Hsize.
  rewrite (selectedStorage_sampled H _ freeMem totalMem w Hfree Htotal).
  rewrite (ofZ_gt_sizeCutoff n Hn). reflexivity.
Qed.

Lemma decimal_content_length_witness :
  selectedStorage (Sample.idle NeverSettles Sample.noFault)
    (contentLength {| content_length := Some "15728640"; req_file := None |})
    Sample.start = Normal MemoryStorage
  /\ selectedStorage (Sample.idle NeverSettles Sample.noFault)
       (contentLength {| content_length := Some "15728641"; req_file := None |})
       Sample.start = Normal DiskStorage.
Proof.
  split.
  - destruct (decimal_content_length (Sample.idle NeverSettles Sample.noFault)
                15728640 (JS.ofZ (8 * Sample.GiB)) (JS.ofZ (10 * Sample.GiB))
                Sample.start) as [_ Hchoice];
      [vm_compute; reflexivity|reflexivity|reflexivity|].
    refine (eq_trans Hchoice _). vm_compute. reflexivity.
  - destruct (decimal_content_length (Sample.idle NeverSettles Sample.noFault)
                15728641 (JS.ofZ (8 * Sample.GiB)) (JS.ofZ (10 * Sample.GiB))
                Sample.start) as [_ Hchoice];
      [vm_compute; reflexivity|reflexivity|reflexivity|].
    refine (eq_trans Hchoice _). vm_compute. reflexivity.
Defined.

(** ** Cleanup in disk mode, and repeated uploads *)

(** X17.  In disk mode a failed relay, by rejection or by timeout, leaves
    no file behind: the response is status 500 with the relay's error (or
    the timeout) as [details] and [storageType] "disk", multer's file is
    removed once the response has been sent, and, its path having been
    free before the request, the file system is as it was. *)
Theorem disk_mode_failure_restores_file_system
    (H : host) (h : option string) (disk : gmap string string) (flag : bool)
    (part : filePart) (e : jsError) :
  let w := initialWorld disk flag in
  opt_storage (optionsFor H h w) = DiskStorage ->
  multer_run H (optionsFor H h w) = Accepted (Some part) ->
  race (files_upload H) = Throw e ->
  unlinkSync_fault H (diskPath H part) = None ->
  disk !! diskPath H part = None ->
  responses (trace (snd (postUpload H h w))) = [(500, failureBody e false)]
  /\ last (trace (snd (postUpload H h w))) = Some (FsUnlink (diskPath H part))
  /\ fs (snd (postUpload H h w)) = disk.
Proof.
  cbv zeta. intros Hengine Hmulter Hrace Hunlink Hfree.
  run_cases H h disk flag.
  rewrite Hmulter, Hengine. cbn [isMemory relayPath].
  rewrite Hrace, Hunlink. observe.
  repeat split.
  - rewrite last_app. reflexivity.
  - rewrite delete_insert_eq. apply delete_id. exact Hfree.
Qed.

Lemma disk_mode_failure_restores_file_system_witness :
  fs (snd (postUpload Scenario.busyRefused (Some "1024")
             (initialWorld Scenario.occupied true))) = Scenario.occupied.
Proof.
  refine (proj2 (proj2 (disk_mode_failure_restores_file_system Scenario.busyRefused
                          (Some "1024") Scenario.occupied true Sample.part
                          (mkError "403 Forbidden")
                          eq_refl eq_refl eq_refl eq_refl _))).
  vm_compute. reflexivity.
Defined.



